(** * Artifact versioning of the rental-price MLOps pipeline

    A shallow embedding of [src/src/utils/artifact_manager.py]
    ([ArtifactManager]) and of its callers: the store part of
    [train_models] ([src/src/steps/training.py]), steps 2 to 4 of
    [run_pipeline] ([src/src/pipelines/orchestrator.py]) with their
    metrics patch, and [PricePredictor] ([src/src/api/predictor.py]).

    The on-disk store is modelled as a record of three nodes:
    - [artifacts/versions/]: a directory whose entries are version
      directories (holding regular files) or stray regular files;
    - [artifacts/latest/]: a directory of regular files or symbolic links;
    - [artifacts/metadata.json]: the global catalog file.
    Pickled Python objects and JSON documents are both carried as [json]
    values; numbers are kept as opaque [Z] values, nothing computes on them.
    Operations run in a state/error monad in which an exception keeps the
    writes made before it, as the disk does. *)

From Stdlib Require Import ZArith Ascii String List Sorted.
From stdpp Require Import base gmap strings list.
Import ListNotations.
Open Scope string_scope.
Set Warnings "-register-all".

(** ** JSON values and Python objects *)

Inductive json : Type :=
  | JNull
  | JBool (b : bool)
  | JNum (n : Z)
  | JStr (s : string)
  | JArr (l : list json)
  | JObj (kv : list (string * json)).

(** [d.get(k)] on a Python dict given as its item list. *)
Fixpoint dict_get (kv : list (string * json)) (k : string) : option json :=
  match kv with
  | [] => None
  | (k', v) :: r => if String.eqb k k' then Some v else dict_get r k
  end.

(** [d[k] = v]: replace in place when present, append otherwise. *)
Fixpoint dict_set (kv : list (string * json)) (k : string) (v : json)
  : list (string * json) :=
  match kv with
  | [] => [(k, v)]
  | (k', v') :: r =>
      if String.eqb k k' then (k', v) :: r else (k', v') :: dict_set r k v
  end.

(** ** Python's [str.split], [int()] and integer formatting *)

Fixpoint split_on_aux (sep : ascii) (s : string) (cur : string)
  : list string :=
  match s with
  | EmptyString => [cur]
  | String c r =>
      if Ascii.eqb c sep then cur :: split_on_aux sep r ""
      else split_on_aux sep r (cur ++ String c EmptyString)
  end.

(** [s.split(sep)] for a one-character separator. *)
Definition split_on (sep : ascii) (s : string) : list string :=
  split_on_aux sep s "".

(** [str.isspace] on one character, reading a byte as the code point of the
    same value. *)
Definition is_py_space (c : ascii) : bool :=
  let n := nat_of_ascii c in
  (n =? 32)%nat || ((9 <=? n)%nat && (n <=? 13)%nat)
  || ((28 <=? n)%nat && (n <=? 31)%nat) || (n =? 133)%nat || (n =? 160)%nat.

Fixpoint drop_space (l : list ascii) : list ascii :=
  match l with
  | c :: r => if is_py_space c then drop_space r else l
  | [] => []
  end.

(** [s.strip()] as [int()] applies it to its argument. *)
Definition py_strip (s : string) : string :=
  string_of_list_ascii
    (rev (drop_space (rev (drop_space (list_ascii_of_string s))))).

Definition digit_value (c : ascii) : option Z :=
  let n := nat_of_ascii c in
  if (48 <=? n)%nat && (n <=? 57)%nat then Some (Z.of_nat (n - 48))
  else None.

(** Decimal digits with single underscores between digits, the literal
    syntax [int(s)] accepts in base 10. [us] records that the previous
    character was an underscore (or that no digit was read yet). *)
Fixpoint parse_digits (acc : Z) (us : bool) (s : string) : option Z :=
  match s with
  | EmptyString => if us then None else Some acc
  | String c r =>
      if Ascii.eqb c "_"%char then
        if us then None else parse_digits acc true r
      else match digit_value c with
           | Some d => parse_digits (acc * 10 + d)%Z false r
           | None => None
           end
  end.

(** [int(s)]: [None] stands for the [ValueError] it raises. *)
Definition py_int (s : string) : option Z :=
  match py_strip s with
  | String c r =>
      if Ascii.eqb c "+"%char then parse_digits 0 true r
      else if Ascii.eqb c "-"%char then option_map Z.opp (parse_digits 0 true r)
      else parse_digits 0 true (String c r)
  | EmptyString => None
  end.

Definition digit_char (n : N) : ascii := ascii_of_N (48 + n).

Fixpoint N_dec_aux (fuel : nat) (n : N) (acc : string) : string :=
  match fuel with
  | O => acc
  | S f =>
      if (n <? 10)%N then String (digit_char n) acc
      else N_dec_aux f (n / 10)%N (String (digit_char (n mod 10)) acc)
  end.

Definition N_dec (n : N) : string := N_dec_aux (S (N.to_nat (N.size n))) n "".

(** [str(z)] / the [{z}] of an f-string. *)
Definition Z_dec (z : Z) : string :=
  if (z <? 0)%Z then "-" ++ N_dec (Z.to_N (- z)) else N_dec (Z.to_N z).

(** ** Stable sorting as [list.sort] does it *)

Section Sorting.
Context {A : Type} (le : A -> A -> bool).

Fixpoint insert_sorted (x : A) (l : list A) : list A :=
  match l with
  | [] => [x]
  | y :: r => if le x y then x :: y :: r else y :: insert_sorted x r
  end.

(** A stable insertion sort under the total preorder [le]: equal elements
    keep their input order, which [sorted] and [list.sort] guarantee. *)
Fixpoint sort_by (l : list A) : list A :=
  match l with
  | [] => []
  | x :: r => insert_sorted x (sort_by r)
  end.
End Sorting.

(** Python's [<=] on [str]: code-point order. *)
Definition str_le (a b : string) : bool := String.leb a b.

(** ** The on-disk store *)

(** Contents of a regular file: a [joblib] pickle of a Python object, a
    JSON document written by [json.dump], or text that is neither. *)
Inductive content : Type :=
  | CPickle (o : json)
  | CJson (j : json)
  | CText (t : string).

(** An entry of [versions/]: a version directory with its regular files,
    or a regular file. *)
Inductive ventry : Type :=
  | VDir (files : gmap string content)
  | VFile (c : content).

(** Where a symbolic link in [latest/] leads: to the file [f] of the
    version directory [v], or to a path whose parent directory does not
    exist. [_update_latest] links to [versions_dir / version / name]; the
    OS reads that target relative to [latest/], so it names the version's
    file when [artifacts_dir] is absolute and [latest/artifacts/versions/...]
    (a path that does not exist, [latest/] holding only files and links)
    for the default relative ["artifacts"], [v] being a plain name (see
    [plain_name]). *)
Inductive target : Type :=
  | TVersion (v f : string)
  | TNowhere.

Inductive lentry : Type :=
  | LFile (c : content)
  | LLink (t : target).

(** A path that is absent, a regular file, or a directory. *)
Inductive node (A : Type) : Type :=
  | NAbsent
  | NFile
  | NDir (a : A).
Arguments NAbsent {A}.
Arguments NFile {A}.
Arguments NDir {A} a.

(** One summary of the global catalog's [versions] list. *)
Record summary : Type := {
  s_version : string;
  s_timestamp : string;
  s_metrics : json;
  s_model_type : string
}.

(** The global catalog document; a key missing from the file is [None]. *)
Record catalog : Type := {
  latest_version : option string;
  last_updated : option string;
  versions : option (list summary)
}.

(** [artifacts/metadata.json]: a document of the catalog's schema, or text
    [json.load] cannot parse. *)
Inductive catalog_file : Type :=
  | CatDoc (c : catalog)
  | CatText (t : string).

Record store : Type := {
  versions_node : node (gmap string ventry);
  latest_node : node (gmap string lentry);
  metadata_file : option catalog_file
}.

Definition set_versions (s : store) (d : node (gmap string ventry)) : store :=
  {| versions_node := d; latest_node := latest_node s;
     metadata_file := metadata_file s |}.
Definition set_latest (s : store) (d : node (gmap string lentry)) : store :=
  {| versions_node := versions_node s; latest_node := d;
     metadata_file := metadata_file s |}.
Definition set_metadata_file (s : store) (f : option catalog_file) : store :=
  {| versions_node := versions_node s; latest_node := latest_node s;
     metadata_file := f |}.

(** ** Exceptions and the state/error monad *)

Inductive err : Type :=
  | FileNotFoundError (msg : string)
  | FileExistsError
  | NotADirectoryError
  | SymlinkUnsupported        (* the [OSError] of [symlink_to] *)
  | SameFileError
  | ValueError
  | JSONDecodeError
  | UnpicklingError
  | TypeError.

Inductive result (A : Type) : Type :=
  | Ok (a : A)
  | Err (e : err).
Arguments Ok {A} a.
Arguments Err {A} e.

(** A computation returns its outcome and the store it leaves behind, also
    when it raises. *)
Definition M (A : Type) : Type := store -> result A * store.

Definition ret {A} (a : A) : M A := fun s => (Ok a, s).
Definition raise {A} (e : err) : M A := fun s => (Err e, s).
Definition bind {A B} (m : M A) (k : A -> M B) : M B :=
  fun s => match m s with
           | (Ok a, s') => k a s'
           | (Err e, s') => (Err e, s')
           end.
Definition get : M store := fun s => (Ok s, s).
Definition put (s' : store) : M unit := fun _ => (Ok tt, s').

(** [try: m  except <exception e with p e>: h e]. *)
Definition try_except {A} (p : err -> bool) (m : M A) (h : err -> M A) : M A :=
  fun s => match m s with
           | (Err e, s') => if p e then h e s' else (Err e, s')
           | r => r
           end.

Notation "x <- m ;; k" := (bind m (fun x => k))
  (at level 100, m at next level, right associativity).
Notation "m ;;; k" := (bind m (fun _ => k))
  (at level 100, right associativity).

Fixpoint mapM_ {A} (f : A -> M unit) (l : list A) : M unit :=
  match l with
  | [] => ret tt
  | x :: r => f x ;;; mapM_ f r
  end.

(** ** [get_next_version] *)

Definition is_vdir (e : ventry) : bool :=
  match e with VDir _ => true | VFile _ => false end.

(** [[d.name for d in versions_dir.iterdir() if d.is_dir()]] *)
Definition dir_names (d : gmap string ventry) : list string :=
  map fst (List.filter (fun kv => is_vdir kv.2) (map_to_list d)).

(** [major, minor, patch = map(int, name[1:].split("."))]: [None] is the
    [ValueError] of [int()] or of the unpacking. *)
Definition parse_version (name : string) : option (Z * Z * Z) :=
  let body := match name with EmptyString => "" | String _ r => r end in
  match split_on "." body with
  | [a; b; c] =>
      match py_int a, py_int b, py_int c with
      | Some x, Some y, Some z => Some (x, y, z)
      | _, _, _ => None
      end
  | _ => None
  end.

(** [f"v{major}.{minor}.{patch}"] *)
Definition format_version (major minor patch : Z) : string :=
  "v" ++ Z_dec major ++ "." ++ Z_dec minor ++ "." ++ Z_dec patch.

(** The name [sorted(existing_versions)[-1]] picks. *)
Definition select_latest (names : list string) : string :=
  List.last (sort_by str_le names) "".

Definition get_next_version : M string :=
  s <- get ;;
  match versions_node s with
  | NAbsent => ret "v1.0.0"
  | NFile => raise NotADirectoryError
  | NDir d =>
      match dir_names d with
      | [] => ret "v1.0.0"
      | names =>
          match parse_version (select_latest names) with
          | Some (major, minor, patch) =>
              ret (format_version major minor (patch + 1))
          | None => raise ValueError
          end
      end
  end.

(** ** File access *)

(** The regular file [versions/v/name], if any ([Path.exists] and [open]). *)
Definition version_file (s : store) (v name : string) : option content :=
  match versions_node s with
  | NDir d =>
      match d !! v with
      | Some (VDir fs) => fs !! name
      | _ => None
      end
  | _ => None
  end.

Definition latest_entry (s : store) (name : string) : option lentry :=
  match latest_node s with
  | NDir d => d !! name
  | _ => None
  end.

(** The file a [latest/] entry designates, following a link. *)
Definition resolve (s : store) (e : lentry) : option content :=
  match e with
  | LFile c => Some c
  | LLink (TVersion v f) => version_file s v f
  | LLink TNowhere => None
  end.

(** [(latest_dir / name)]: [exists()] and [open()] follow links. *)
Definition latest_file (s : store) (name : string) : option content :=
  match latest_entry s name with
  | Some e => resolve s e
  | None => None
  end.



(** [open(versions_dir / v / name, "w")] followed by a dump of [c]. *)
Definition write_version_file (v name : string) (c : content) : M unit :=
  s <- get ;;
  match versions_node s with
  | NDir d =>
      match d !! v with
      | Some (VDir fs) =>
          put (set_versions s (NDir (<[v := VDir (<[name := c]> fs)]> d)))
      | Some (VFile _) => raise NotADirectoryError
      | None => raise (FileNotFoundError ("versions/" ++ v ++ "/" ++ name))
      end
  | NFile => raise NotADirectoryError
  | NAbsent => raise (FileNotFoundError ("versions/" ++ v ++ "/" ++ name))
  end.

(** [(versions_dir / v).mkdir(exist_ok=True)] *)
Definition mkdir_version (v : string) : M unit :=
  s <- get ;;
  match versions_node s with
  | NDir d =>
      match d !! v with
      | Some (VDir _) => ret tt
      | Some (VFile _) => raise FileExistsError
      | None => put (set_versions s (NDir (<[v := VDir ∅]> d)))
      end
  | NFile => raise NotADirectoryError
  | NAbsent => raise (FileNotFoundError ("versions/" ++ v))
  end.

(** [joblib.load(path)] on an existing file. *)
Definition joblib_load (c : option content) : M json :=
  match c with
  | Some (CPickle o) => ret o
  | Some _ => raise UnpicklingError
  | None => raise (FileNotFoundError "")
  end.

(** [json.load(f)] *)
Definition json_load (c : content) : M json :=
  match c with
  | CJson j => ret j
  | _ => raise JSONDecodeError
  end.

(** ** [__init__] *)

(** [dir.mkdir(parents=True, exist_ok=True)] for [versions/] and [latest/]. *)
Definition init : M unit :=
  s <- get ;;
  match versions_node s with
  | NAbsent => put (set_versions s (NDir ∅))
  | NDir _ => ret tt
  | NFile => raise FileExistsError
  end ;;;
  s <- get ;;
  match latest_node s with
  | NAbsent => put (set_latest s (NDir ∅))
  | NDir _ => ret tt
  | NFile => raise FileExistsError
  end.

(** A disk on which nothing of the store exists yet. *)
Definition empty_disk : store :=
  {| versions_node := NAbsent; latest_node := NAbsent; metadata_file := None |}.

(** ** [_update_latest] *)

Definition latest_names : list string :=
  ["price_model.pkl"; "preprocessor.pkl"; "feature_names.pkl"; "metadata.json"].

(** [if file_path.exists(): file_path.unlink()] *)
Definition remove_if_exists (name : string) : M unit :=
  s <- get ;;
  match latest_file s name, latest_node s with
  | Some _, NDir d => put (set_latest s (NDir (delete name d)))
  | _, _ => ret tt
  end.

(** [(latest_dir / name).symlink_to(versions_dir / v / name)];
    [link_resolves] says whether that target, read relative to [latest/],
    names the version's file (see [target]); [symlinks_ok] whether the
    platform lets the process create links. *)
Definition symlink_to (link_resolves symlinks_ok : bool) (v name : string)
  : M unit :=
  s <- get ;;
  match latest_node s with
  | NDir d =>
      match d !! name with
      | Some _ => raise FileExistsError
      | None =>
          if symlinks_ok then
            put (set_latest s (NDir (<[name := LLink
                   (if link_resolves then TVersion v name else TNowhere)]> d)))
          else raise SymlinkUnsupported
      end
  | NFile => raise NotADirectoryError
  | NAbsent => raise (FileNotFoundError ("latest/" ++ name))
  end.

(** [shutil.copy2(versions_dir / v / name, latest_dir / name)]: the source
    is read, [SameFileError] is raised when the destination resolves to the
    source, and the destination is opened for writing, which follows a link. *)
Definition copy2 (v name : string) : M unit :=
  s <- get ;;
  match version_file s v name with
  | None => raise (FileNotFoundError ("versions/" ++ v ++ "/" ++ name))
  | Some c =>
      match latest_node s with
      | NDir d =>
          match d !! name with
          | Some (LLink (TVersion x g)) =>
              if String.eqb x v && String.eqb g name then raise SameFileError
              else write_version_file x g c
          | Some (LLink TNowhere) => raise (FileNotFoundError ("latest/" ++ name))
          | _ => put (set_latest s (NDir (<[name := LFile c]> d)))
          end
      | NFile => raise NotADirectoryError
      | NAbsent => raise (FileNotFoundError ("latest/" ++ name))
      end
  end.

Definition is_os_error (e : err) : bool :=
  match e with
  | FileNotFoundError _ | FileExistsError | NotADirectoryError
  | SymlinkUnsupported | SameFileError => true
  | _ => false
  end.

Definition update_latest (link_resolves symlinks_ok : bool) (v : string)
  : M unit :=
  mapM_ remove_if_exists latest_names ;;;
  try_except is_os_error
    (mapM_ (symlink_to link_resolves symlinks_ok v) latest_names)
    (fun _ => mapM_ (copy2 v) latest_names).

(** ** Run metadata and [_update_global_metadata] *)

(** The [metadata] dict [save_artifacts] builds. *)
Record run_metadata : Type := {
  md_version : string;
  md_timestamp : string;
  md_metrics : json;
  md_params : json;
  md_model_type : string;
  md_feature_count : json
}.

(** The document [json.dump(metadata, f)] writes, keys in source order. *)
Definition metadata_json (md : run_metadata) : json :=
  JObj [("version", JStr (md_version md));
        ("timestamp", JStr (md_timestamp md));
        ("metrics", md_metrics md);
        ("params", md_params md);
        ("model_type", JStr (md_model_type md));
        ("feature_count", md_feature_count md)].

Definition empty_catalog : catalog :=
  {| latest_version := None; last_updated := None; versions := None |}.

(** [key=lambda x: x["timestamp"], reverse=True]: [x] may precede [y]. *)
Definition ts_desc (x y : summary) : bool := str_le (s_timestamp y) (s_timestamp x).

(** [global_metadata["versions"]], [[]] when the key is missing. *)
Definition catalog_versions (c : catalog) : list summary :=
  match versions c with Some l => l | None => [] end.

(** The [version_info] dict built from the new metadata. *)
Definition version_info (md : run_metadata) : summary :=
  {| s_version := md_version md; s_timestamp := md_timestamp md;
     s_metrics := md_metrics md; s_model_type := md_model_type md |}.

(** The in-memory part of [_update_global_metadata]. *)
Definition update_catalog (c : catalog) (md : run_metadata) : catalog :=
  let vs := catalog_versions c in
  let kept := List.filter (fun v => negb (String.eqb (s_version v) (md_version md))) vs in
  {| latest_version := Some (md_version md);
     last_updated := Some (md_timestamp md);
     versions := Some (sort_by ts_desc (kept ++ [version_info md])) |}.

Definition update_global_metadata (md : run_metadata) : M unit :=
  s <- get ;;
  c <- match metadata_file s with
       | None => ret empty_catalog
       | Some (CatDoc c) => ret c
       | Some (CatText _) => raise JSONDecodeError
       end ;;
  s' <- get ;;
  put (set_metadata_file s' (Some (CatDoc (update_catalog c md)))).

(** ** [save_artifacts] *)

Definition build_metadata (v now : string) (metrics params : json)
    (feature_info : list (string * json)) : run_metadata :=
  {| md_version := v; md_timestamp := now; md_metrics := metrics;
     md_params := params; md_model_type := "RandomForestRegressor";
     md_feature_count :=
       match dict_get feature_info "total_features" with
       | Some n => n
       | None => JNum 0
       end |}.

(** [now] is [datetime.now().isoformat()] at the call. *)
Definition save_artifacts (link_resolves symlinks_ok : bool)
    (model preprocessor : json) (feature_info : list (string * json))
    (metrics params : json) (version : option string) (now : string)
  : M string :=
  v <- match version with
       | None => get_next_version
       | Some v => ret v
       end ;;
  mkdir_version v ;;;
  write_version_file v "price_model.pkl" (CPickle model) ;;;
  write_version_file v "preprocessor.pkl" (CPickle preprocessor) ;;;
  write_version_file v "feature_names.pkl" (CPickle (JObj feature_info)) ;;;
  let md := build_metadata v now metrics params feature_info in
  write_version_file v "metadata.json" (CJson (metadata_json md)) ;;;
  update_latest link_resolves symlinks_ok v ;;;
  update_global_metadata md ;;;
  ret v.

(** ** Readers *)

Definition load_latest_artifacts : M (json * json * json * json) :=
  s <- get ;;
  match latest_node s with
  | NAbsent => raise (FileNotFoundError "No artifacts found")
  | _ =>
      if forallb (fun n => bool_decide (is_Some (latest_file s n)))
           ["price_model.pkl"; "preprocessor.pkl"; "feature_names.pkl"]
      then
        model <- joblib_load (latest_file s "price_model.pkl") ;;
        preprocessor <- joblib_load (latest_file s "preprocessor.pkl") ;;
        feature_info <- joblib_load (latest_file s "feature_names.pkl") ;;
        metadata <- match latest_file s "metadata.json" with
                    | Some c => json_load c
                    | None => ret (JObj [])
                    end ;;
        ret (model, preprocessor, feature_info, metadata)
      else raise (FileNotFoundError "Missing artifact files")
  end.

Definition get_version_info (version : option string) : M json :=
  s <- get ;;
  let path := match version with
              | None => latest_file s "metadata.json"
              | Some v => version_file s v "metadata.json"
              end in
  match path with
  | Some c => json_load c
  | None =>
      raise (FileNotFoundError ("Metadata not found for version "
               ++ match version with Some v => v | None => "None" end))
  end.

(** The loop body of [list_versions] over the sorted directory entries. *)
Fixpoint collect_metadata (entries : list (string * ventry)) : M (list json) :=
  match entries with
  | [] => ret []
  | (_, VDir fs) :: r =>
      match fs !! "metadata.json" with
      | Some c =>
          metadata <- json_load c ;;
          rest <- collect_metadata r ;;
          ret (metadata :: rest)
      | None => collect_metadata r
      end
  | (_, VFile _) :: r => collect_metadata r
  end.

(** [sorted(versions_dir.iterdir())]: paths of one directory compare by name. *)
Definition sorted_entries (d : gmap string ventry) : list (string * ventry) :=
  sort_by (fun a b => str_le a.1 b.1) (map_to_list d).

Definition list_versions : M (list json) :=
  s <- get ;;
  match versions_node s with
  | NAbsent => ret []
  | NFile => raise NotADirectoryError
  | NDir d => collect_metadata (sorted_entries d)
  end.

(** ** The metrics patch of [run_pipeline] (step 4) *)

Definition patch_metrics (v : string) (metrics : json) : M unit :=
  s <- get ;;
  match versions_node s with
  | NDir d =>
      match d !! v with
      | None => ret tt
      | Some (VFile _) => raise NotADirectoryError
      | Some (VDir fs) =>
          match fs !! "metadata.json" with
          | None => raise (FileNotFoundError ("versions/" ++ v ++ "/metadata.json"))
          | Some c =>
              metadata <- json_load c ;;
              match metadata with
              | JObj kv =>
                  write_version_file v "metadata.json"
                    (CJson (JObj (dict_set kv "metrics" metrics)))
              | _ => raise TypeError
              end
          end
      end
  | _ => ret tt
  end.

(** [try: ... except Exception as e: logger.warning(...)] *)
Definition attach_metrics (v : string) (metrics : json) : M unit :=
  try_except (fun _ => true) (patch_metrics v metrics) (fun _ => ret tt).

(** ** Specification-side notions and concrete stores *)

(** The order on version triples the specification prescribes: numeric and
    lexicographic on (major, minor, patch). *)
Definition triple_ltb (a b : Z * Z * Z) : bool :=
  let '(x1, y1, z1) := a in
  let '(x2, y2, z2) := b in
  (x1 <? x2)%Z || ((x1 =? x2)%Z && ((y1 <? y2)%Z || ((y1 =? y2)%Z && (z1 <? z2)%Z))).

(** A store whose [versions/] holds empty version directories [names]. *)
Definition vstore (names : list string) : store :=
  {| versions_node := NDir (list_to_map (map (fun n => (n, VDir ∅)) names));
     latest_node := NDir ∅;
     metadata_file := None |}.

(** [n] consecutive [save_artifacts] calls with the version omitted, for an
    absolute [artifacts_dir] on a platform with symbolic links. *)
Fixpoint saves_omitted (n : nat) : M (list string) :=
  match n with
  | O => ret []
  | S k =>
      v <- save_artifacts true true (JStr "model") (JStr "preprocessor") []
             (JObj []) (JObj []) None "2024-01-01T00:00:00" ;;
      rest <- saves_omitted k ;;
      ret (v :: rest)
  end.

(** [latest/] holding the three pickles but no [metadata.json]. *)
Definition partial_latest : store :=
  {| versions_node := NDir ∅;
     latest_node := NDir (list_to_map
       [("price_model.pkl", LFile (CPickle (JStr "model")));
        ("preprocessor.pkl", LFile (CPickle (JStr "preprocessor")));
        ("feature_names.pkl", LFile (CPickle (JObj [])))]);
     metadata_file := None |}.

(** ** Store observations used in the statements *)

(** The catalog [_update_global_metadata] starts from: the parsed file, the
    empty dict when there is none, [None] when [json.load] fails. *)
Definition prior_catalog (s : store) : option catalog :=
  match metadata_file s with
  | None => Some empty_catalog
  | Some (CatDoc c) => Some c
  | Some (CatText _) => None
  end.

(** At most one summary per version id. *)
Definition unique_versions (c : catalog) : Prop :=
  List.NoDup (map s_version (catalog_versions c)).

(** Run metadata of a first save, for the witnesses. *)
Definition md_example : run_metadata :=
  build_metadata "v1.0.0" "2024-01-01T00:00:00" (JObj []) (JObj []) [].



(** [versions/v1.0.0] is present but empty, and the four files of
    [latest/] are links to its (missing) files. *)
Definition dangling_store : store :=
  {| versions_node := NDir (list_to_map [("v1.0.0", VDir ∅)]);
     latest_node := NDir (list_to_map
       (map (fun n => (n, LLink (TVersion "v1.0.0" n))) latest_names));
     metadata_file := None |}.

(** The version directories of a listing that hold a [metadata.json]. *)
Fixpoint with_metadata (entries : list (string * ventry))
  : list (string * gmap string content) :=
  match entries with
  | [] => []
  | (n, VDir fs) :: r =>
      match fs !! "metadata.json" with
      | Some _ => (n, fs) :: with_metadata r
      | None => with_metadata r
      end
  | (_, VFile _) :: r => with_metadata r
  end.

(** The entries of [versions/] in the order [list_versions] visits them. *)
Definition version_listing (s : store) : list (string * ventry) :=
  match versions_node s with NDir d => sorted_entries d | _ => [] end.

(** The entries of [versions/], each once. *)
Definition version_entries (s : store) : list (string * ventry) :=
  match versions_node s with NDir d => map_to_list d | _ => [] end.

(** A computation that never changes the store. *)
Definition readonly {A} (m : M A) : Prop := forall s, snd (m s) = s.

(** [versions/] and [latest/] both exist as directories. *)
Definition dirs_ok (s : store) : Prop :=
  (exists d, versions_node s = NDir d) /\ (exists d, latest_node s = NDir d).

(** The operations a constructed [ArtifactManager] (and [run_pipeline]'s
    metrics patch) can run on the store. *)
Inductive op : Type :=
  | OpInit
  | OpNextVersion
  | OpSave (link_resolves symlinks_ok : bool) (model preprocessor : json)
      (feature_info : list (string * json)) (metrics params : json)
      (version : option string) (now : string)
  | OpUpdateLatest (link_resolves symlinks_ok : bool) (v : string)
  | OpUpdateGlobal (md : run_metadata)
  | OpLoadLatest
  | OpVersionInfo (version : option string)
  | OpListVersions
  | OpAttachMetrics (v : string) (metrics : json).

(** The store an operation leaves, whether it returns or raises. *)
Definition run_op (o : op) (s : store) : store :=
  match o with
  | OpInit => snd (init s)
  | OpNextVersion => snd (get_next_version s)
  | OpSave lr so m p fi me pa v now =>
      snd (save_artifacts lr so m p fi me pa v now s)
  | OpUpdateLatest lr so v => snd (update_latest lr so v s)
  | OpUpdateGlobal md => snd (update_global_metadata md s)
  | OpLoadLatest => snd (load_latest_artifacts s)
  | OpVersionInfo v => snd (get_version_info v s)
  | OpListVersions => snd (list_versions s)
  | OpAttachMetrics v m => snd (attach_metrics v m s)
  end.

Definition run_ops (os : list op) (s : store) : store :=
  fold_left (fun s o => run_op o s) os s.



(** ** Callers of the store: [train_models], [run_pipeline], [PricePredictor] *)

(** None of the four files of [latest/] is a symbolic link that does not
    resolve: each is absent or [exists()] is true for it. *)
Definition latest_clean (s : store) : Prop :=
  forall n, In n latest_names -> latest_entry s n = None \/ latest_file s n <> None.

(** The four files [save_artifacts] writes into [versions/v], with their
    contents. *)
Definition bundle (model preprocessor : json) (feature_info : list (string * json))
    (md : run_metadata) : list (string * content) :=
  [("price_model.pkl", CPickle model);
   ("preprocessor.pkl", CPickle preprocessor);
   ("feature_names.pkl", CPickle (JObj feature_info));
   ("metadata.json", CJson (metadata_json md))].

(** The entry of [latest/] for [name] after [_update_latest(v)] from a
    [latest/] without that file: a link when links can be made, a copy of
    [c] otherwise. *)
Definition promoted_entry (link_resolves symlinks_ok : bool) (v name : string)
    (c : content) : lentry :=
  if symlinks_ok then LLink (if link_resolves then TVersion v name else TNowhere)
  else LFile c.

(** The [feature_names] dict [preprocess_data] builds
    ([src/src/steps/preprocessing.py]). *)
Definition preprocess_feature_info (categorical_cols numerical_cols : list string)
  : list (string * json) :=
  [("categorical_cols", JArr (map JStr categorical_cols));
   ("numerical_cols", JArr (map JStr numerical_cols));
   ("total_features",
     JNum (Z.of_nat (length categorical_cols + length numerical_cols)))].

(** The [params] dict of [train_models] ([src/src/steps/training.py]). *)
Definition train_params : json :=
  JObj [("n_estimators", JNum 100); ("random_state", JNum 42);
        ("n_jobs", JNum (-1)); ("model_type", JStr "RandomForestRegressor")].

(** The store part of [train_models] once [model.fit] has produced
    [model]: [ArtifactManager()] runs, then the versioned save with
    [metrics={}] when [preprocessor] and [feature_info] are not [None]
    ([JNull] for the preprocessor, [None] for the dict). The legacy
    branch writes [artifacts/price_model.pkl], a path outside the three
    nodes of the store, and returns ["legacy"]. *)
Definition train_models_save (link_resolves symlinks_ok : bool)
    (model preprocessor : json) (feature_info : option (list (string * json)))
    (version : option string) (now : string) : M string :=
  init ;;;
  match preprocessor, feature_info with
  | JNull, _ => ret "legacy"
  | _, None => ret "legacy"
  | _, Some fi =>
      save_artifacts link_resolves symlinks_ok model preprocessor fi
        (JObj []) train_params version now
  end.

(** Steps 2 to 4 of [run_pipeline] on the store: [train_models] with
    [version=None] on the [feature_info] dict of [preprocess_data];
    [evaluate_model] yields [metrics] (its [artifacts/metrics.json] lies
    outside the store); then a second [ArtifactManager()], outside the
    [try], and the metrics patch. *)
Definition pipeline_artifacts (link_resolves symlinks_ok : bool)
    (model preprocessor : json) (feature_info : list (string * json))
    (metrics : json) (now : string) : M string :=
  version <- train_models_save link_resolves symlinks_ok model preprocessor
               (Some feature_info) None now ;;
  init ;;;
  attach_metrics version metrics ;;;
  ret version.

(** Exceptions [PricePredictor] ([src/src/api/predictor.py]) can raise:
    those of the store, and those of its own dict and set handling. *)
Inductive pexc : Type :=
  | PStoreError (e : err)
  | PAttributeError
  | PTypeError
  | PValueError (missing : gset string).

Definition pbind {A B} (m : pexc + A) (k : A -> pexc + B) : pexc + B :=
  match m with
  | inl e => inl e
  | inr a => k a
  end.

Notation "x <-? m ;; k" := (pbind m (fun x => k))
  (at level 100, m at next level, right associativity).








(** [PricePredictor._validate_features] on the one-row frame
    [pd.DataFrame([features])] of a dict [features], with
    [feature_info["categorical_cols"]] and [feature_info["numerical_cols"]]
    the lists of column names [preprocess_data] stores. The selected frame
    [df[expected_order]] is given as its (column, value) pairs; a column of
    [expected_order] is always present when it is built, so the [JNull]
    default is never used. *)
Definition validate_features (categorical_cols numerical_cols : list string)
    (features : list (string * json)) : pexc + list (string * json) :=
  let required : gset string := list_to_set (categorical_cols ++ numerical_cols) in
  let input : gset string := list_to_set (map fst features) in
  let missing := required ∖ input in
  if decide (missing = ∅) then
    inr (map (fun c => (c, match dict_get features c with Some x => x | None => JNull end))
             (categorical_cols ++ numerical_cols))
  else inl (PValueError missing).

(** [PricePredictor.predict] on a dict: validation, then the fitted
    [preprocessor.transform] and [model.predict], given as functions that
    may raise; the [except] re-raises. *)
Definition predict_dict {T P : Type}
    (transform : list (string * json) -> pexc + T) (model_predict : T -> pexc + P)
    (categorical_cols numerical_cols : list string)
    (features : list (string * json)) : pexc + P :=
  validated <-? validate_features categorical_cols numerical_cols features ;;
  processed <-? transform validated ;;
  model_predict processed.

(** A computation keeps [P] on every outcome, also when it raises. *)
Definition preserves {A} (P : store -> Prop) (m : M A) : Prop :=
  forall s, P s -> P (snd (m s)).

(** ** Generic facts: sorting *)

Section SortFacts.
Context {A : Type} (le : A -> A -> bool).

Lemma insert_sorted_perm (x : A) (l : list A) :
  Permutation (insert_sorted le x l) (x :: l).
Proof.
  induction l as [|y r IH]; simpl; [reflexivity|].
  destruct (le x y); [reflexivity|].
  rewrite IH. apply perm_swap.
Qed.

Lemma sort_by_perm (l : list A) : Permutation (sort_by le l) l.
Proof.
  induction l as [|x r IH]; simpl; [reflexivity|].
  rewrite insert_sorted_perm. now constructor.
Qed.

Hypothesis le_total : forall a b, le a b = false -> le b a = true.

Lemma insert_sorted_Sorted (x : A) (l : list A) :
  Sorted (fun a b => le a b = true) l ->
  Sorted (fun a b => le a b = true) (insert_sorted le x l).
Proof.
  induction 1 as [|y r Hs IH Hhd]; simpl; [auto|].
  destruct (le x y) eqn:Hxy; [auto|].
  constructor; [exact IH|].
  destruct r as [|z r']; simpl; [constructor; auto|].
  inversion Hhd; subst.
  destruct (le x z); constructor; auto.
Qed.

Lemma sort_by_Sorted (l : list A) :
  Sorted (fun a b => le a b = true) (sort_by le l).
Proof.
  induction l; simpl; auto using insert_sorted_Sorted.
Qed.
End SortFacts.

Lemma str_le_total (a b : string) : str_le a b = false -> str_le b a = true.
Proof.
  unfold str_le, String.leb. rewrite (String.compare_antisym b a).
  destruct (String.compare a b); simpl; congruence.
Qed.

(** ** Generic facts: the monad *)

Lemma bind_ok_inv {A B} (m : M A) (k : A -> M B) s b s' :
  bind m k s = (Ok b, s') ->
  exists a s1, m s = (Ok a, s1) /\ k a s1 = (Ok b, s').
Proof.
  unfold bind. destruct (m s) as [[a|e] s1]; intros H; [eauto|discriminate].
Qed.

Lemma preserves_ret {A} P (a : A) : preserves P (ret a).
Proof. intros s H; exact H. Qed.

Lemma preserves_raise {A} P e : preserves P (@raise A e).
Proof. intros s H; exact H. Qed.

Lemma preserves_bind {A B} P (m : M A) (k : A -> M B) :
  preserves P m -> (forall a, preserves P (k a)) -> preserves P (bind m k).
Proof.
  intros Hm Hk s Hs. unfold bind.
  specialize (Hm s Hs). destruct (m s) as [[a|e] s1]; simpl in *; auto.
  apply Hk, Hm.
Qed.

Lemma preserves_mapM_ {A} P (f : A -> M unit) (l : list A) :
  (forall x, In x l -> preserves P (f x)) -> preserves P (mapM_ f l).
Proof.
  induction l as [|x r IH]; intros Hf; simpl.
  - apply preserves_ret.
  - apply preserves_bind; [apply Hf; now left|].
    intros _. apply IH. intros y Hy. apply Hf. now right.
Qed.

Lemma preserves_try_except {A} P p (m : M A) (h : err -> M A) :
  preserves P m -> (forall e, preserves P (h e)) -> preserves P (try_except p m h).
Proof.
  intros Hm Hh s Hs. unfold try_except.
  specialize (Hm s Hs). destruct (m s) as [[a|e] s1]; simpl in *; auto.
  destruct (p e); auto. apply Hh, Hm.
Qed.

(** ** C1: the allocator orders names as strings *)

(** (C1) With [v1.9.0] and [v1.10.0] present, [get_next_version] selects
    [v1.9.0] (the last name in string order) and returns [v1.9.1], which the
    numeric triple order places below [v1.10.0]. *)
Theorem get_next_version_string_order :
  fst (get_next_version (vstore ["v1.9.0"; "v1.10.0"])) = Ok "v1.9.1"
  /\ parse_version "v1.9.1" = Some (1, 9, 1)%Z
  /\ triple_ltb (1, 9, 1)%Z (1, 10, 0)%Z = true.
Proof. vm_compute. auto. Qed.

(** ** C2: allocation can repeat an identifier *)

(** (C2) Twelve saves with the version omitted, from an empty disk, are
    allocated [v1.0.0] ... [v1.0.10] and then [v1.0.10] once more: with
    [v1.0.0] ... [v1.0.10] present the string-greatest name is [v1.0.9]. *)
Theorem saves_omitted_repeat_id :
  fst ((init ;;; saves_omitted 12) empty_disk) =
    Ok ["v1.0.0"; "v1.0.1"; "v1.0.2"; "v1.0.3"; "v1.0.4"; "v1.0.5";
        "v1.0.6"; "v1.0.7"; "v1.0.8"; "v1.0.9"; "v1.0.10"; "v1.0.10"].
Proof. vm_compute. reflexivity. Qed.

(** ** C3: a malformed directory name is not skipped *)

(** (C3, counterexample) [v1.0.0-backup] sorts after [v1.0.0]; its patch
    part [0-backup] is not an integer and the call raises [ValueError]. *)
Lemma malformed_name_raises :
  fst (get_next_version (vstore ["v1.0.0"; "v1.0.0-backup"])) = Err ValueError.
Proof. vm_compute. reflexivity. Qed.

(** (C3, amended) When [versions/] holds directories, [get_next_version]
    parses only the name it selects, changes nothing, and raises
    [ValueError] exactly when that name does not parse; no other name is
    looked at. *)
Theorem get_next_version_parses_selected (s : store) (d : gmap string ventry) :
  versions_node s = NDir d -> dir_names d <> [] ->
  get_next_version s =
    (match parse_version (select_latest (dir_names d)) with
     | Some (major, minor, patch) => Ok (format_version major minor (patch + 1))
     | None => Err ValueError
     end, s).
Proof.
  intros Hv Hn. unfold get_next_version, bind, get. rewrite Hv.
  destruct (dir_names d) as [|n ns] eqn:Hd; [congruence|].
  destruct (parse_version _) as [[[a b] c]|]; reflexivity.
Qed.

Lemma get_next_version_parses_selected_witness :
  versions_node (vstore ["v1.0.0"; "v1.0.0-backup"]) =
    NDir (list_to_map [("v1.0.0", VDir ∅); ("v1.0.0-backup", VDir ∅)])
  /\ fst (get_next_version (vstore ["v1.0.0"; "v1.0.0-backup"])) =
     match parse_version "v1.0.0-backup" with
     | Some (major, minor, patch) => Ok (format_version major minor (patch + 1))
     | None => Err ValueError
     end.
Proof.
  split; [reflexivity|].
  rewrite (get_next_version_parses_selected (vstore ["v1.0.0"; "v1.0.0-backup"])
             (list_to_map [("v1.0.0", VDir ∅); ("v1.0.0-backup", VDir ∅)])
             eq_refl ltac:(vm_compute; discriminate)).
  vm_compute. reflexivity.
Defined.

(** ** C4: [load_latest_artifacts] requires three files, not four *)

(** (C4, counterexample) With the three pickles present and no
    [metadata.json], the bundle is returned with an empty metadata dict. *)
Lemma load_latest_without_metadata :
  fst (load_latest_artifacts partial_latest) =
    Ok (JStr "model", JStr "preprocessor", JObj [], JObj []).
Proof. vm_compute. reflexivity. Qed.

(** (C4, amended) [load_latest_artifacts] raises [FileNotFoundError]
    exactly when [latest/] is absent or one of [price_model.pkl],
    [preprocessor.pkl], [feature_names.pkl] does not exist in it (as
    [exists()] sees it, through links); without [metadata.json] a returned
    bundle carries the empty dict; on a freshly constructed empty store the
    call raises [FileNotFoundError]. *)
Theorem load_latest_artifacts_not_found (s : store) :
  ((latest_node s = NAbsent \/
    exists n, In n ["price_model.pkl"; "preprocessor.pkl"; "feature_names.pkl"]
              /\ latest_file s n = None)
   <-> exists msg, fst (load_latest_artifacts s) = Err (FileNotFoundError msg))
  /\ (latest_file s "metadata.json" = None ->
      forall m p f md, fst (load_latest_artifacts s) = Ok (m, p, f, md) ->
      md = JObj [])
  /\ fst (load_latest_artifacts (snd (init empty_disk))) =
       Err (FileNotFoundError "Missing artifact files").
Proof.
  split; [|split; [|vm_compute; reflexivity]].
  - unfold load_latest_artifacts, bind, get, ret, raise; simpl.
    destruct (latest_node s) eqn:Hl.
    + split; [eauto|]. intros _. now left.
    + assert (Hnone : forall n, latest_file s n = None)
        by (intros n; unfold latest_file, latest_entry; now rewrite Hl).
      rewrite !Hnone. simpl. split; [intros; eexists; reflexivity|].
      intros _. right. exists "price_model.pkl". split; [now left|apply Hnone].
    + destruct (latest_file s "price_model.pkl") as [c1|] eqn:H1;
      [|split; [intros; eexists; reflexivity|intros _; right; eexists; split; [now left|exact H1]]].
      destruct (latest_file s "preprocessor.pkl") as [c2|] eqn:H2;
      [|split; [intros; eexists; reflexivity|intros _; right; eexists; split; [right; now left|exact H2]]].
      destruct (latest_file s "feature_names.pkl") as [c3|] eqn:H3;
      [|split; [intros; eexists; reflexivity|intros _; right; eexists; split; [right; right; now left|exact H3]]].
      simpl. split.
      * intros [Habs|[n [Hin Hn]]]; [discriminate|].
        simpl in Hin. destruct Hin as [<-|[<-|[<-|[]]]]; congruence.
      * intros [msg Hm]. exfalso.
        destruct c1, c2, c3; simpl in Hm; try discriminate;
        destruct (latest_file s "metadata.json") as [[]|]; simpl in Hm; discriminate.
  - intros Hmd m p f md.
    unfold load_latest_artifacts, bind, get, ret, raise; simpl.
    rewrite Hmd.
    destruct (latest_node s); [discriminate| |];
    destruct (latest_file s "price_model.pkl") as [[]|];
    destruct (latest_file s "preprocessor.pkl") as [[]|];
    destruct (latest_file s "feature_names.pkl") as [[]|];
    simpl; intros H; try discriminate; congruence.
Qed.

Lemma load_latest_artifacts_not_found_witness :
  (exists msg, fst (load_latest_artifacts (snd (init empty_disk))) =
                 Err (FileNotFoundError msg))
  /\ latest_file partial_latest "metadata.json" = None
  /\ JObj [] = JObj [].
Proof.
  split; [|split; [reflexivity|]].
  - apply (proj1 (proj1 (load_latest_artifacts_not_found (snd (init empty_disk))))).
    right. exists "price_model.pkl". split; [now left|vm_compute; reflexivity].
  - destruct (load_latest_artifacts_not_found partial_latest) as [_ [Hmd _]].
    exact (Hmd eq_refl (JStr "model") (JStr "preprocessor") (JObj []) (JObj [])
             ltac:(vm_compute; reflexivity)).
Defined.

(** ** C5, C6: the catalog update *)

Lemma perm_filter {A} (f : A -> bool) (l l' : list A) :
  Permutation l l' -> Permutation (List.filter f l) (List.filter f l').
Proof.
  induction 1; simpl.
  - constructor.
  - destruct (f x); auto.
  - destruct (f x), (f y); auto using perm_swap.
  - eauto using Permutation_trans.
Qed.

Lemma nodup_map_filter {A B} (g : A -> B) (f : A -> bool) (l : list A) :
  List.NoDup (map g l) -> List.NoDup (map g (List.filter f l)).
Proof.
  induction l as [|x r IH]; simpl; intros Hnd; [constructor|].
  inversion Hnd as [|? ? Hnin Hr]; subst.
  destruct (f x); simpl; auto.
  constructor; auto.
  intros Hin. apply Hnin. apply in_map_iff in Hin as [y [Hy Hiny]].
  apply filter_In in Hiny as [Hiny _]. rewrite <- Hy. now apply in_map.
Qed.

Lemma update_global_metadata_spec (md : run_metadata) (s : store) :
  update_global_metadata md s =
    match prior_catalog s with
    | Some c => (Ok tt, set_metadata_file s (Some (CatDoc (update_catalog c md))))
    | None => (Err JSONDecodeError, s)
    end.
Proof.
  unfold update_global_metadata, prior_catalog, bind, get, put, ret, raise.
  destruct (metadata_file s) as [[c|t]|]; reflexivity.
Qed.

Lemma update_catalog_versions (c : catalog) (md : run_metadata) :
  Permutation (catalog_versions (update_catalog c md))
    (List.filter (fun v => negb (String.eqb (s_version v) (md_version md)))
       (catalog_versions c) ++ [version_info md]).
Proof. apply sort_by_perm. Qed.

(** (C5) From every catalog [json.load] accepts, recording [md] leaves
    exactly one summary with [md]'s version id (the new one) and keeps the
    catalog free of duplicate ids. *)
Theorem update_global_metadata_unique_entry (md : run_metadata) (s : store)
    (c : catalog) :
  prior_catalog s = Some c ->
  exists c',
    update_global_metadata md s = (Ok tt, set_metadata_file s (Some (CatDoc c')))
    /\ List.filter (fun x => String.eqb (s_version x) (md_version md))
         (catalog_versions c') = [version_info md]
    /\ (unique_versions c -> unique_versions c').
Proof.
  intros Hc. exists (update_catalog c md).
  rewrite update_global_metadata_spec, Hc. split; [reflexivity|].
  pose proof (update_catalog_versions c md) as Hp. split.
  - apply Permutation_length_1_inv. symmetry.
    rewrite (perm_filter _ _ _ Hp), List.filter_app. simpl.
    rewrite String.eqb_refl.
    match goal with |- Permutation (?k ++ _) _ => replace k with (@nil summary) end;
      [reflexivity|].
    clear Hp. induction (catalog_versions c) as [|x r IH]; simpl; [reflexivity|].
    destruct (String.eqb (s_version x) (md_version md)) eqn:Hx; simpl;
      [exact IH|now rewrite Hx].
  - unfold unique_versions. intros Hnd.
    apply Permutation_NoDup with (l := map s_version
      (List.filter (fun v => negb (String.eqb (s_version v) (md_version md)))
         (catalog_versions c) ++ [version_info md])).
    + apply Permutation_map. now symmetry.
    + rewrite map_app. simpl.
      apply Permutation_NoDup with
        (l := md_version md :: map s_version (List.filter
                (fun v => negb (String.eqb (s_version v) (md_version md)))
                (catalog_versions c))).
      * apply Permutation_cons_append.
      * constructor; [|now apply nodup_map_filter].
        intros Hin. apply in_map_iff in Hin as [y [Hy Hiny]].
        apply filter_In in Hiny as [_ Hneq].
        rewrite Hy, String.eqb_refl in Hneq. discriminate.
Qed.

(** A catalog that already holds summaries of [v1.0.0] and [v1.0.1]. *)
Lemma update_global_metadata_unique_entry_witness :
  let old0 := {| s_version := "v1.0.0"; s_timestamp := "2024-01-01T00:00:00";
                 s_metrics := JObj []; s_model_type := "RandomForestRegressor" |} in
  let old1 := {| s_version := "v1.0.1"; s_timestamp := "2024-01-02T00:00:00";
                 s_metrics := JObj []; s_model_type := "RandomForestRegressor" |} in
  let c := {| latest_version := Some "v1.0.1"; last_updated := Some "2024-01-02T00:00:00";
              versions := Some [old1; old0] |} in
  let s := set_metadata_file empty_disk (Some (CatDoc c)) in
  let md := build_metadata "v1.0.0" "2024-01-03T00:00:00"
              (JObj [("rmse", JNum 15)]) (JObj []) [] in
  unique_versions c
  /\ exists c',
    update_global_metadata md s = (Ok tt, set_metadata_file s (Some (CatDoc c')))
    /\ List.filter (fun x => String.eqb (s_version x) (md_version md))
         (catalog_versions c') = [version_info md]
    /\ unique_versions c'.
Proof.
  intros old0 old1 c s md.
  assert (Hu : unique_versions c).
  { unfold unique_versions. simpl. constructor; [|constructor; [|constructor]].
    - intros [H|[]]. discriminate.
    - intros []. }
  split; [exact Hu|].
  destruct (update_global_metadata_unique_entry md s c eq_refl) as [c' [H1 [H2 H3]]].
  exists c'. split; [exact H1|split; [exact H2|exact (H3 Hu)]].
Defined.

(** (C6) From every catalog [json.load] accepts, recording [md] sets
    [latest_version] and [last_updated] to [md]'s id and timestamp whatever
    the catalog held, the versions list is the old one without [md]'s id
    plus [md]'s summary, re-ordered, and it is sorted by timestamp in
    descending order. *)
Theorem update_global_metadata_sets_latest (md : run_metadata) (s : store)
    (c : catalog) :
  prior_catalog s = Some c ->
  exists c',
    update_global_metadata md s = (Ok tt, set_metadata_file s (Some (CatDoc c')))
    /\ latest_version c' = Some (md_version md)
    /\ last_updated c' = Some (md_timestamp md)
    /\ versions c' = Some (catalog_versions c')
    /\ In (version_info md) (catalog_versions c')
    /\ Permutation (catalog_versions c')
         (List.filter (fun v => negb (String.eqb (s_version v) (md_version md)))
            (catalog_versions c) ++ [version_info md])
    /\ Sorted (fun x y => ts_desc x y = true) (catalog_versions c').
Proof.
  intros Hc. exists (update_catalog c md).
  rewrite update_global_metadata_spec, Hc.
  pose proof (update_catalog_versions c md) as Hp.
  repeat split; auto.
  - apply (Permutation_in _ (Permutation_sym Hp)). apply in_or_app. right. now left.
  - apply sort_by_Sorted. intros a b. unfold ts_desc. apply str_le_total.
Qed.

(** A catalog whose [latest_version] is [v1.0.2], the newest, with two
    summaries; the recorded save is of the older [v1.0.1]. *)
Lemma update_global_metadata_sets_latest_witness :
  let old0 := {| s_version := "v1.0.0"; s_timestamp := "2024-01-01T00:00:00";
                 s_metrics := JObj []; s_model_type := "RandomForestRegressor" |} in
  let old2 := {| s_version := "v1.0.2"; s_timestamp := "2024-03-01T00:00:00";
                 s_metrics := JObj []; s_model_type := "RandomForestRegressor" |} in
  let c := {| latest_version := Some "v1.0.2"; last_updated := Some "2024-03-01T00:00:00";
              versions := Some [old0; old2] |} in
  let s := set_metadata_file empty_disk (Some (CatDoc c)) in
  let md := build_metadata "v1.0.1" "2024-02-01T00:00:00" (JObj []) (JObj []) [] in
  exists c',
    update_global_metadata md s = (Ok tt, set_metadata_file s (Some (CatDoc c')))
    /\ latest_version c' = Some "v1.0.1"
    /\ last_updated c' = Some "2024-02-01T00:00:00"
    /\ versions c' = Some (catalog_versions c')
    /\ In (version_info md) (catalog_versions c')
    /\ Permutation (catalog_versions c') [old0; old2; version_info md]
    /\ Sorted (fun x y => ts_desc x y = true) (catalog_versions c').
Proof.
  intros old0 old2 c s md.
  exact (update_global_metadata_sets_latest md s c eq_refl).
Defined.

(** ** C7: what [save_artifacts] writes and returns *)

Lemma get_next_version_state (s : store) : snd (get_next_version s) = s.
Proof.
  unfold get_next_version, bind, get, ret, raise.
  destruct (versions_node s) as [| |d]; simpl; auto.
  destruct (dir_names d); simpl; auto.
  destruct (parse_version _) as [[[? ?] ?]|]; reflexivity.
Qed.

Lemma write_version_file_ok (x g : string) (c : content) (s s1 : store) :
  write_version_file x g c s = (Ok tt, s1) -> version_file s1 x g = Some c.
Proof.
  unfold write_version_file, bind, get, put, raise.
  destruct (versions_node s) as [| |d] eqn:Hv; try discriminate.
  destruct (d !! x) as [[fs|c0]|] eqn:Hx; try discriminate.
  intros H. injection H as <-. unfold version_file; simpl.
  now rewrite !lookup_insert_eq.
Qed.

(** (C7) A call of [save_artifacts] that returns [v] assigned [v] (the
    given version, or the one [get_next_version] computed), wrote the
    metadata document with exactly the keys [version], [timestamp],
    [metrics], [params], [model_type] (["RandomForestRegressor"]) and
    [feature_count] ([feature_info["total_features"]], [0] when absent) to
    [versions/v/metadata.json], then ran the latest promotion and the
    catalog update, both successfully, before returning. *)
Theorem save_artifacts_metadata_and_order (link_resolves symlinks_ok : bool)
    (model preprocessor : json) (feature_info : list (string * json))
    (metrics params : json) (version : option string) (now : string)
    (s : store) (v : string) (s' : store) :
  save_artifacts link_resolves symlinks_ok model preprocessor feature_info
    metrics params version now s = (Ok v, s') ->
  let md := build_metadata v now metrics params feature_info in
  (version = Some v \/ (version = None /\ fst (get_next_version s) = Ok v))
  /\ metadata_json md =
       JObj [("version", JStr v); ("timestamp", JStr now);
             ("metrics", metrics); ("params", params);
             ("model_type", JStr "RandomForestRegressor");
             ("feature_count", match dict_get feature_info "total_features" with
                               | Some n => n
                               | None => JNum 0
                               end)]
  /\ exists s1 s2,
       version_file s1 v "metadata.json" = Some (CJson (metadata_json md))
       /\ update_latest link_resolves symlinks_ok v s1 = (Ok tt, s2)
       /\ update_global_metadata md s2 = (Ok tt, s').
Proof.
  intros H. unfold save_artifacts in H. cbv zeta.
  apply bind_ok_inv in H as [a [s0 [Hv H]]].
  apply bind_ok_inv in H as [[] [sa [_ H]]].
  apply bind_ok_inv in H as [[] [sb [_ H]]].
  apply bind_ok_inv in H as [[] [sc [_ H]]].
  apply bind_ok_inv in H as [[] [sd [_ H]]].
  apply bind_ok_inv in H as [[] [se [Hw H]]].
  apply bind_ok_inv in H as [[] [sf [Hl H]]].
  apply bind_ok_inv in H as [[] [sg [Hg H]]].
  unfold ret in H. injection H as -> ->.
  split; [|split; [reflexivity|]].
  - destruct version as [v'|].
    + unfold ret in Hv. injection Hv as ->. now left.
    + right. split; [reflexivity|].
      pose proof (get_next_version_state s) as Hs. rewrite Hv in Hs |- *.
      reflexivity.
  - exists se, sf. split; [|split; assumption].
    exact (write_version_file_ok _ _ _ _ _ Hw).
Qed.

Lemma save_artifacts_metadata_and_order_witness :
  let md := build_metadata "v1.0.0" "2024-01-01T00:00:00" (JObj []) (JObj []) [] in
  metadata_json md =
       JObj [("version", JStr "v1.0.0"); ("timestamp", JStr "2024-01-01T00:00:00");
             ("metrics", JObj []); ("params", JObj []);
             ("model_type", JStr "RandomForestRegressor");
             ("feature_count", JNum 0)]
  /\ exists s1 s2,
       version_file s1 "v1.0.0" "metadata.json" = Some (CJson (metadata_json md))
       /\ update_latest true true "v1.0.0" s1 = (Ok tt, s2)
       /\ update_global_metadata md s2 =
            (Ok tt, snd (save_artifacts true true (JStr "model") (JStr "preprocessor")
                           [] (JObj []) (JObj []) (Some "v1.0.0")
                           "2024-01-01T00:00:00" (snd (init empty_disk)))).
Proof.
  destruct (save_artifacts_metadata_and_order true true (JStr "model")
              (JStr "preprocessor") [] (JObj []) (JObj []) (Some "v1.0.0")
              "2024-01-01T00:00:00" (snd (init empty_disk)) "v1.0.0"
              (snd (save_artifacts true true (JStr "model") (JStr "preprocessor")
                      [] (JObj []) (JObj []) (Some "v1.0.0")
                      "2024-01-01T00:00:00" (snd (init empty_disk))))
              ltac:(vm_compute; reflexivity)) as [_ [Hj Hrest]].
  split; [exact Hj|exact Hrest].
Defined.

(** ** C8: writes to one version and the other versions *)






Lemma remove_if_exists_effect (n : string) (s : store) :
  exists s1, remove_if_exists n s = (Ok tt, s1)
  /\ versions_node s1 = versions_node s
  /\ latest_file s1 n = None
  /\ (forall m, latest_entry s1 m = None \/ latest_entry s1 m = latest_entry s m).
Proof.
  unfold remove_if_exists, bind, get, put, ret.
  destruct (latest_file s n) as [c|] eqn:Hf.
  - destruct (latest_node s) as [| |d] eqn:Hl.
    + unfold latest_file, latest_entry in Hf. now rewrite Hl in Hf.
    + unfold latest_file, latest_entry in Hf. now rewrite Hl in Hf.
    + eexists. split; [reflexivity|]. split; [reflexivity|]. split.
      * unfold latest_file, latest_entry. simpl. now rewrite lookup_delete_eq.
      * intros m. unfold latest_entry. simpl. rewrite Hl.
        destruct (decide (m = n)) as [->|Hne].
        -- left. now rewrite lookup_delete_eq.
        -- right. now rewrite lookup_delete_ne.
  - exists s. repeat split; auto.
Qed.

Lemma resolve_versions (s s' : store) (e : lentry) :
  versions_node s' = versions_node s -> resolve s' e = resolve s e.
Proof.
  intros Hv. destruct e as [c|[v f|]]; simpl; auto.
  unfold version_file. now rewrite Hv.
Qed.

Lemma remove_loop_effect (l : list string) (s : store) :
  let s1 := snd (mapM_ remove_if_exists l s) in
  versions_node s1 = versions_node s
  /\ (forall n, In n l -> latest_file s1 n = None)
  /\ (forall m, latest_entry s1 m = None \/ latest_entry s1 m = latest_entry s m).
Proof.
  revert s. induction l as [|n r IH]; intros s; simpl.
  - split; [reflexivity|]. split; [intros ? []|auto].
  - destruct (remove_if_exists_effect n s) as [s1 [Hr [Hv [Hf He]]]].
    unfold bind. rewrite Hr.
    destruct (IH s1) as [Hv' [Hf' He']].
    split; [congruence|]. split.
    + intros m [Heq|Hin]; [subst m|auto].
      unfold latest_file in *. destruct (He' n) as [Hm|Hm]; rewrite Hm; auto.
      destruct (latest_entry s1 n); auto. now rewrite (resolve_versions _ _ _ Hv').
    + intros m. destruct (He' m) as [Hm|Hm]; rewrite Hm; auto.
Qed.








Lemma update_global_metadata_versions (md : run_metadata) (s : store) :
  versions_node (snd (update_global_metadata md s)) = versions_node s
  /\ latest_node (snd (update_global_metadata md s)) = latest_node s.
Proof.
  rewrite update_global_metadata_spec. now destruct (prior_catalog s).
Qed.


(** (C8) [versions/v1.0.0] is present but empty and the
    files of [latest/] are links to its missing files: [exists()] is false
    for them, so they are not removed, [symlink_to] raises
    [FileExistsError], and the [copy2] fallback writes the bundle of
    [v1.0.1] through the links into [versions/v1.0.0]. Its metadata goes
    from missing to that of [v1.0.1]. *)
Lemma save_writes_through_dangling_links :
  fst (get_version_info (Some "v1.0.0") dangling_store) =
    Err (FileNotFoundError "Metadata not found for version v1.0.0")
  /\ fst (get_version_info (Some "v1.0.0")
        (snd (save_artifacts true true (JStr "model") (JStr "preprocessor") []
                (JObj []) (JObj []) (Some "v1.0.1") "2024-01-01T00:00:00"
                dangling_store))) =
     Ok (metadata_json (build_metadata "v1.0.1" "2024-01-01T00:00:00"
                          (JObj []) (JObj []) [])).
Proof. split; vm_compute; reflexivity. Qed.





(** ** C9: [list_versions] reads the version directories *)

Lemma perm_with_metadata (l l' : list (string * ventry)) :
  Permutation l l' -> Permutation (with_metadata l) (with_metadata l').
Proof.
  induction 1 as [|[n e] l l' _ IH|[n e] [n' e'] l|l l' l'' _ IH1 _ IH2].
  - constructor.
  - destruct e as [fs|c]; simpl; auto.
    destruct (fs !! "metadata.json"); auto.
  - destruct e as [fs|c], e' as [fs'|c']; simpl; auto;
      repeat destruct (_ !! "metadata.json"); auto using perm_swap.
  - eauto using Permutation_trans.
Qed.

Lemma collect_metadata_pure (entries : list (string * ventry)) :
  exists r, forall s, collect_metadata entries s = (r, s).
Proof.
  induction entries as [|[n [fs|c]] r IH]; simpl.
  - exists (Ok []). reflexivity.
  - destruct (fs !! "metadata.json") as [c|]; [|exact IH].
    destruct IH as [res Hres].
    destruct c as [o|j|t].
    + exists (Err JSONDecodeError). reflexivity.
    + exists (match res with Ok l => Ok (j :: l) | Err e => Err e end).
      intros s. unfold bind, ret; simpl. rewrite Hres. now destruct res.
    + exists (Err JSONDecodeError). reflexivity.
  - exact IH.
Qed.

Lemma collect_metadata_state (entries : list (string * ventry)) (s s' : store) :
  fst (collect_metadata entries s) = fst (collect_metadata entries s').
Proof.
  destruct (collect_metadata_pure entries) as [r Hr]. now rewrite !Hr.
Qed.

Lemma collect_metadata_ok (entries : list (string * ventry)) (s : store)
    (l : list json) :
  fst (collect_metadata entries s) = Ok l ->
  Forall2 (fun e j => e.2 !! "metadata.json" = Some (CJson j))
    (with_metadata entries) l.
Proof.
  revert s l. induction entries as [|[n [fs|c]] r IH]; intros s l; simpl.
  - unfold ret. intros H. injection H as <-. constructor.
  - destruct (fs !! "metadata.json") as [c|] eqn:Hm; [|apply IH].
    unfold bind. destruct c as [o|j|t]; simpl; try discriminate.
    destruct (collect_metadata r s) as [[l'|e] s1] eqn:Hc; simpl; try discriminate.
    unfold ret. intros H. injection H as <-. constructor; [exact Hm|].
    apply (IH s). now rewrite Hc.
  - apply IH.
Qed.

(** (C9) [list_versions] returns, for the version directories that hold a
    [metadata.json], one document each, in listing order (directories
    without one are skipped), so its length is the number of such
    directories; the global catalog file plays no part in the outcome. *)
Theorem list_versions_ground_truth (s : store) (l : list json) :
  (forall f, fst (list_versions (set_metadata_file s f)) = fst (list_versions s))
  /\ (fst (list_versions s) = Ok l ->
      Forall2 (fun e j => e.2 !! "metadata.json" = Some (CJson j))
        (with_metadata (version_listing s)) l
      /\ length l = length (with_metadata (version_entries s))).
Proof.
  split.
  - intros f. unfold list_versions, bind, get. simpl.
    destruct (versions_node s); auto. apply collect_metadata_state.
  - intros H.
    assert (Hf : Forall2 (fun e j => e.2 !! "metadata.json" = Some (CJson j))
                   (with_metadata (version_listing s)) l).
    { unfold list_versions, bind, get, ret, raise in H. unfold version_listing.
      destruct (versions_node s) as [| |d]; simpl in *.
      - injection H as <-. constructor.
      - discriminate.
      - exact (collect_metadata_ok _ _ _ H). }
    split; [exact Hf|].
    rewrite <- (Forall2_length _ _ _ Hf).
    apply Permutation_length, perm_with_metadata.
    unfold version_listing, version_entries.
    destruct (versions_node s); auto. apply sort_by_perm.
Qed.

Lemma list_versions_ground_truth_witness :
  let s := snd ((init ;;; saves_omitted 2) empty_disk) in
  exists l, fst (list_versions s) = Ok l
  /\ length l = length (with_metadata (version_entries s)).
Proof.
  intros s. exists (match fst (list_versions s) with Ok l => l | Err _ => [] end).
  assert (Hok : fst (list_versions s) =
                Ok (match fst (list_versions s) with Ok l => l | Err _ => [] end))
    by (vm_compute; reflexivity).
  split; [exact Hok|].
  exact (proj2 (proj2 (list_versions_ground_truth s _) Hok)).
Defined.

(** ** C10: the constructor's directories stay *)

Ltac dirs_tac :=
  unfold dirs_ok in *; simpl in *;
  repeat match goal with
         | H : _ /\ _ |- _ => destruct H
         | H : exists _, _ |- _ => destruct H
         end;
  split; eexists; eauto.

Lemma readonly_bind {A B} (m : M A) (k : A -> M B) :
  readonly m -> (forall a, readonly (k a)) -> readonly (bind m k).
Proof.
  intros Hm Hk s. unfold bind. specialize (Hm s).
  destruct (m s) as [[a|e] s1]; simpl in *; subst; [apply Hk|reflexivity].
Qed.

Lemma readonly_preserves {A} (P : store -> Prop) (m : M A) :
  readonly m -> preserves P m.
Proof. intros Hm s Hs. now rewrite Hm. Qed.

Ltac ro_tac :=
  repeat first
    [ apply readonly_bind; [|intros ?]
    | intros ?s; reflexivity
    | match goal with c : content |- _ => destruct c end
    | match goal with |- readonly (match ?x with _ => _ end) => destruct x end
    | match goal with |- readonly (if ?x then _ else _) => destruct x end ].

Lemma get_next_version_ro : readonly get_next_version.
Proof. intros s. apply get_next_version_state. Qed.

Lemma load_latest_artifacts_ro : readonly load_latest_artifacts.
Proof.
  unfold load_latest_artifacts, joblib_load, json_load. ro_tac.
Qed.

Lemma get_version_info_ro (version : option string) :
  readonly (get_version_info version).
Proof. unfold get_version_info, json_load. ro_tac. Qed.

Lemma list_versions_ro : readonly list_versions.
Proof.
  intros s. unfold list_versions, bind, get, ret, raise.
  destruct (versions_node s); auto.
  destruct (collect_metadata_pure (sorted_entries a)) as [r Hr]. now rewrite Hr.
Qed.

Lemma init_dirs : preserves dirs_ok init.
Proof.
  intros s Hs. destruct Hs as [[d1 H1] [d2 H2]].
  unfold init, bind, get, ret. rewrite H1. simpl. rewrite H2. simpl.
  split; eauto.
Qed.

Lemma write_version_file_dirs (x g : string) (c : content) :
  preserves dirs_ok (write_version_file x g c).
Proof.
  intros s Hs. unfold write_version_file, bind, get, put, raise.
  destruct (versions_node s); simpl; auto.
  destruct (_ !! x) as [[]|]; simpl; auto. dirs_tac.
Qed.

Lemma mkdir_version_dirs (v : string) : preserves dirs_ok (mkdir_version v).
Proof.
  intros s Hs. unfold mkdir_version, bind, get, put, raise, ret.
  destruct (versions_node s); simpl; auto.
  destruct (_ !! v) as [[]|]; simpl; auto. dirs_tac.
Qed.

Lemma remove_if_exists_dirs (n : string) : preserves dirs_ok (remove_if_exists n).
Proof.
  intros s Hs. unfold remove_if_exists, bind, get, put, ret.
  destruct (latest_file s n), (latest_node s); simpl; auto. dirs_tac.
Qed.

Lemma symlink_to_dirs (lr so : bool) (v n : string) :
  preserves dirs_ok (symlink_to lr so v n).
Proof.
  intros s Hs. unfold symlink_to, bind, get, put, raise.
  destruct (latest_node s); simpl; auto.
  destruct (_ !! n); simpl; auto. destruct so; simpl; auto. dirs_tac.
Qed.

Lemma copy2_dirs (v n : string) : preserves dirs_ok (copy2 v n).
Proof.
  intros s Hs. unfold copy2, bind, get, put, raise.
  destruct (version_file s v n); simpl; auto.
  destruct (latest_node s); simpl; auto.
  destruct (_ !! n) as [[c0|[x g|]]|]; simpl; auto.
  - dirs_tac.
  - destruct (String.eqb x v && String.eqb g n); simpl; auto.
    now apply write_version_file_dirs.
  - dirs_tac.
Qed.

Lemma update_latest_dirs (lr so : bool) (v : string) :
  preserves dirs_ok (update_latest lr so v).
Proof.
  unfold update_latest. apply preserves_bind.
  - apply preserves_mapM_. intros; apply remove_if_exists_dirs.
  - intros _. apply preserves_try_except.
    + apply preserves_mapM_. intros; apply symlink_to_dirs.
    + intros _. apply preserves_mapM_. intros; apply copy2_dirs.
Qed.

Lemma update_global_metadata_dirs (md : run_metadata) :
  preserves dirs_ok (update_global_metadata md).
Proof.
  intros s Hs. destruct (update_global_metadata_versions md s) as [H1 H2].
  unfold dirs_ok. now rewrite H1, H2.
Qed.

Lemma save_artifacts_dirs (lr so : bool) (model preprocessor : json)
    (feature_info : list (string * json)) (metrics params : json)
    (version : option string) (now : string) :
  preserves dirs_ok (save_artifacts lr so model preprocessor feature_info
                       metrics params version now).
Proof.
  unfold save_artifacts. apply preserves_bind.
  - destruct version; [apply preserves_ret|].
    apply readonly_preserves, get_next_version_ro.
  - intros v. cbv beta zeta.
    apply preserves_bind; [apply mkdir_version_dirs|intros _].
    do 4 (apply preserves_bind; [apply write_version_file_dirs|intros _]).
    apply preserves_bind; [apply update_latest_dirs|intros _].
    apply preserves_bind; [apply update_global_metadata_dirs|intros _].
    apply preserves_ret.
Qed.

Lemma patch_metrics_dirs (v : string) (metrics : json) :
  preserves dirs_ok (patch_metrics v metrics).
Proof.
  intros s Hs. unfold patch_metrics, bind, get, ret, raise.
  destruct (versions_node s); simpl; auto.
  destruct (_ !! v) as [[fs|c]|]; simpl; auto.
  destruct (fs !! "metadata.json") as [[o|j|t]|]; simpl; auto.
  destruct j; simpl; auto. now apply write_version_file_dirs.
Qed.

Lemma run_op_dirs (o : op) (s : store) : dirs_ok s -> dirs_ok (run_op o s).
Proof.
  intros Hs. destruct o; simpl.
  - now apply init_dirs.
  - now rewrite get_next_version_state.
  - now apply save_artifacts_dirs.
  - now apply update_latest_dirs.
  - now apply update_global_metadata_dirs.
  - now rewrite load_latest_artifacts_ro.
  - now rewrite get_version_info_ro.
  - now rewrite list_versions_ro.
  - unfold attach_metrics. apply preserves_try_except; auto.
    + apply patch_metrics_dirs.
    + intros; apply preserves_ret.
Qed.

Lemma init_ok_dirs (s0 s : store) : init s0 = (Ok tt, s) -> dirs_ok s.
Proof.
  unfold init, bind, get, put, ret, raise.
  destruct (versions_node s0) eqn:H1; simpl;
  destruct (latest_node s0) eqn:H2; simpl; intros H; try discriminate;
  injection H as <-; dirs_tac.
Qed.

(** (C10) After a successful construction, [versions/] and [latest/] exist
    as directories whatever operations follow (returning or raising), so
    the [not self.versions_dir.exists()] branch of [get_next_version] and
    the [not self.latest_dir.exists()] check of [load_latest_artifacts]
    are never taken; on a freshly constructed empty store
    [load_latest_artifacts] fails with ["Missing artifact files"]. *)
Theorem constructed_dirs_persist (s0 s : store) (os : list op) :
  init s0 = (Ok tt, s) ->
  let s' := run_ops os s in
  versions_node s' <> NAbsent
  /\ latest_node s' <> NAbsent
  /\ fst (load_latest_artifacts s') <> Err (FileNotFoundError "No artifacts found")
  /\ fst (load_latest_artifacts (snd (init empty_disk))) =
       Err (FileNotFoundError "Missing artifact files").
Proof.
  intros Hinit s'.
  assert (Hd : dirs_ok s').
  { subst s'. unfold run_ops. apply init_ok_dirs in Hinit. revert s Hinit.
    induction os as [|o r IH]; intros s Hs; simpl; auto.
    apply IH, run_op_dirs, Hs. }
  destruct Hd as [[d1 H1] [d2 H2]].
  split; [congruence|]. split; [congruence|]. split; [|vm_compute; reflexivity].
  unfold load_latest_artifacts, bind, get. rewrite H2.
  destruct (forallb _ _); [|discriminate].
  unfold joblib_load, json_load, ret, raise.
  destruct (latest_file s' "price_model.pkl") as [[]|]; simpl; try discriminate;
  destruct (latest_file s' "preprocessor.pkl") as [[]|]; simpl; try discriminate;
  destruct (latest_file s' "feature_names.pkl") as [[]|]; simpl; try discriminate;
  destruct (latest_file s' "metadata.json") as [[]|]; simpl; discriminate.
Qed.

Lemma constructed_dirs_persist_witness :
  let s' := run_ops [OpNextVersion; OpLoadLatest] (snd (init empty_disk)) in
  versions_node s' <> NAbsent
  /\ latest_node s' <> NAbsent
  /\ fst (load_latest_artifacts s') <> Err (FileNotFoundError "No artifacts found")
  /\ fst (load_latest_artifacts (snd (init empty_disk))) =
       Err (FileNotFoundError "Missing artifact files").
Proof.
  exact (constructed_dirs_persist empty_disk (snd (init empty_disk))
           [OpNextVersion; OpLoadLatest] ltac:(vm_compute; reflexivity)).
Defined.

(** * Further properties of the store and of its callers *)

(** ** Steps of a save *)

Lemma latest_names_nodup : List.NoDup latest_names.
Proof.
  unfold latest_names. repeat constructor; simpl; intuition discriminate.
Qed.

Lemma bind_ok_step {A B} (m : M A) (k : A -> M B) (s : store) (a : A) (s1 : store) :
  m s = (Ok a, s1) -> bind m k s = k a s1.
Proof. intros H. unfold bind. now rewrite H. Qed.

Lemma bind_err_step {A B} (m : M A) (k : A -> M B) (s : store) (e : err) (s1 : store) :
  m s = (Err e, s1) -> bind m k s = (Err e, s1).
Proof. intros H. unfold bind. now rewrite H. Qed.

Lemma version_file_same (s s' : store) (y h : string) :
  versions_node s' = versions_node s -> version_file s' y h = version_file s y h.
Proof. intros H. unfold version_file. now rewrite H. Qed.

Lemma latest_entry_same (s s' : store) (n : string) :
  latest_node s' = latest_node s -> latest_entry s' n = latest_entry s n.
Proof. intros H. unfold latest_entry. now rewrite H. Qed.

Lemma write_version_file_ok_eq (x g : string) (c : content) (s s1 : store) :
  write_version_file x g c s = (Ok tt, s1) ->
  latest_node s1 = latest_node s /\ metadata_file s1 = metadata_file s
  /\ (exists d, versions_node s1 = NDir d)
  /\ (forall y h, version_file s1 y h =
        if String.eqb y x && String.eqb h g then Some c else version_file s y h).
Proof.
  unfold write_version_file, bind, get, put, raise.
  destruct (versions_node s) as [| |d] eqn:Hv; try discriminate.
  destruct (d !! x) as [[fs|c0]|] eqn:Hx; try discriminate.
  intros H. injection H as <-. simpl. split; [reflexivity|]. split; [reflexivity|].
  split; [eauto|]. intros y h. unfold version_file. simpl. rewrite Hv.
  destruct (String.eqb_spec y x) as [->|Hyx]; simpl.
  - rewrite lookup_insert_eq, Hx.
    destruct (String.eqb_spec h g) as [->|Hhg].
    + now rewrite lookup_insert_eq.
    + rewrite lookup_insert_ne by congruence. reflexivity.
  - rewrite lookup_insert_ne by congruence. reflexivity.
Qed.

Lemma mkdir_version_ok_eq (v : string) (s s1 : store) :
  mkdir_version v s = (Ok tt, s1) ->
  latest_node s1 = latest_node s /\ metadata_file s1 = metadata_file s
  /\ (forall y h, version_file s1 y h = version_file s y h).
Proof.
  unfold mkdir_version, bind, get, put, raise, ret.
  destruct (versions_node s) as [| |d] eqn:Hv; try discriminate.
  destruct (d !! v) as [[fs|c0]|] eqn:Hx; try discriminate.
  - intros H. injection H as <-. auto.
  - intros H. injection H as <-. simpl. split; [reflexivity|]. split; [reflexivity|].
    intros y h. unfold version_file. simpl. rewrite Hv.
    destruct (decide (y = v)) as [->|Hyv].
    + now rewrite lookup_insert_eq, Hx, lookup_empty.
    + rewrite lookup_insert_ne by congruence. reflexivity.
Qed.

Lemma save_ok_inv (lr so : bool) (model preprocessor : json)
    (feature_info : list (string * json)) (metrics params : json)
    (version : option string) (now : string) (s : store) (v : string) (s' : store) :
  save_artifacts lr so model preprocessor feature_info metrics params version now s
    = (Ok v, s') ->
  exists se sf,
    latest_node se = latest_node s /\ metadata_file se = metadata_file s
    /\ (exists d, versions_node se = NDir d)
    /\ (forall n c, In (n, c) (bundle model preprocessor feature_info
                                 (build_metadata v now metrics params feature_info)) ->
          version_file se v n = Some c)
    /\ (forall y h, version_file s y h <> None -> version_file se y h <> None)
    /\ (forall y h, y <> v -> version_file se y h = version_file s y h)
    /\ update_latest lr so v se = (Ok tt, sf)
    /\ update_global_metadata (build_metadata v now metrics params feature_info) sf
       = (Ok tt, s').
Proof.
  intros H. unfold save_artifacts in H. cbv zeta in H.
  apply bind_ok_inv in H as [a [s0 [Hv H]]].
  assert (Hs0 : s0 = s).
  { destruct version; [unfold ret in Hv; congruence|].
    pose proof (get_next_version_state s) as Hs. rewrite Hv in Hs. exact Hs. }
  subst s0.
  apply bind_ok_inv in H as [[] [sa [Ha H]]].
  apply bind_ok_inv in H as [[] [sb [Hb H]]].
  apply bind_ok_inv in H as [[] [sc [Hc H]]].
  apply bind_ok_inv in H as [[] [sd [Hd H]]].
  apply bind_ok_inv in H as [[] [se [He H]]].
  apply bind_ok_inv in H as [[] [sf [Hf H]]].
  apply bind_ok_inv in H as [[] [sg [Hg H]]].
  unfold ret in H. injection H as -> ->.
  destruct (mkdir_version_ok_eq _ _ _ Ha) as [La [Ma Va]].
  destruct (write_version_file_ok_eq _ _ _ _ _ Hb) as [Lb [Mb [_ Vb]]].
  destruct (write_version_file_ok_eq _ _ _ _ _ Hc) as [Lc [Mc [_ Vc]]].
  destruct (write_version_file_ok_eq _ _ _ _ _ Hd) as [Ld [Md [_ Vd]]].
  destruct (write_version_file_ok_eq _ _ _ _ _ He) as [Le [Me [De Ve]]].
  exists se, sf.
  split; [congruence|]. split; [congruence|]. split; [exact De|].
  split; [|split; [|split; [|split; assumption]]].
  - intros n c Hin. simpl in Hin.
    destruct Hin as [Hn|[Hn|[Hn|[Hn|[]]]]]; injection Hn as <- <-;
      rewrite Ve, Vd, Vc, Vb; rewrite ?String.eqb_refl; reflexivity.
  - intros y h Hne. rewrite Ve, Vd, Vc, Vb, Va.
    repeat match goal with |- context [if ?b then _ else _] => destruct b end;
      congruence.
  - intros y h Hyv. apply String.eqb_neq in Hyv.
    rewrite Ve, Vd, Vc, Vb, Va, Hyv. reflexivity.
Qed.

(** ** The promotion step on a clean [latest/] *)



Lemma remove_if_exists_meta (n : string) (f : option catalog_file) :
  preserves (fun s => metadata_file s = f) (remove_if_exists n).
Proof.
  intros s Hs. unfold remove_if_exists, bind, get, put, ret.
  destruct (latest_file s n), (latest_node s); simpl; auto.
Qed.




Lemma remove_if_exists_latest_dir (n : string) :
  preserves (fun s => exists d, latest_node s = NDir d) (remove_if_exists n).
Proof.
  intros s [d Hd]. unfold remove_if_exists, bind, get, put, ret. rewrite Hd.
  destruct (latest_file s n); simpl; eauto.
Qed.

Lemma remove_loop_ok (l : list string) (s : store) :
  mapM_ remove_if_exists l s = (Ok tt, snd (mapM_ remove_if_exists l s)).
Proof.
  revert s. induction l as [|n r IH]; intros s; [reflexivity|].
  destruct (remove_if_exists_effect n s) as [s1 [Hr _]].
  simpl. rewrite (bind_ok_step _ _ _ _ _ Hr). apply IH.
Qed.

Lemma symlink_loop (lr : bool) (v : string) (l : list string) (s : store)
    (d : gmap string lentry) :
  latest_node s = NDir d -> List.NoDup l -> (forall n, In n l -> d !! n = None) ->
  exists d', mapM_ (symlink_to lr true v) l s = (Ok tt, set_latest s (NDir d'))
  /\ (forall n, In n l ->
        d' !! n = Some (LLink (if lr then TVersion v n else TNowhere)))
  /\ (forall m, ~ In m l -> d' !! m = d !! m).
Proof.
  revert s d. induction l as [|n r IH]; intros s d Hl Hnd Hnone.
  - exists d. split; [|split; [intros ? []|auto]].
    destruct s; simpl in *; subst. reflexivity.
  - inversion Hnd as [|? ? Hnr Hndr]; subst.
    set (d1 := <[n := LLink (if lr then TVersion v n else TNowhere)]> d).
    assert (Hsym : symlink_to lr true v n s = (Ok tt, set_latest s (NDir d1))).
    { unfold symlink_to, bind, get, put. rewrite Hl, (Hnone n (or_introl eq_refl)).
      reflexivity. }
    destruct (IH (set_latest s (NDir d1)) d1) as [d' [Hrun [Hin Hout]]];
      [reflexivity|exact Hndr|..].
    { intros m Hm. unfold d1. rewrite lookup_insert_ne by (intros ->; contradiction).
      apply Hnone. now right. }
    exists d'. simpl. rewrite (bind_ok_step _ _ _ _ _ Hsym), Hrun.
    split; [reflexivity|]. split.
    + intros m [<-|Hm]; [|now apply Hin].
      rewrite (Hout n Hnr). unfold d1. now rewrite lookup_insert_eq.
    + intros m Hm. rewrite Hout by (intros H; apply Hm; now right).
      unfold d1. rewrite lookup_insert_ne by (intros ->; apply Hm; now left).
      reflexivity.
Qed.

Lemma copy_loop (v : string) (l : list string) (s : store) (d : gmap string lentry) :
  latest_node s = NDir d -> List.NoDup l -> (forall n, In n l -> d !! n = None) ->
  (forall n, In n l -> version_file s v n <> None) ->
  exists d', mapM_ (copy2 v) l s = (Ok tt, set_latest s (NDir d'))
  /\ (forall n c, In n l -> version_file s v n = Some c -> d' !! n = Some (LFile c))
  /\ (forall m, ~ In m l -> d' !! m = d !! m).
Proof.
  revert s d. induction l as [|n r IH]; intros s d Hl Hnd Hnone Hsrc.
  - exists d. split; [|split; [intros ? ? []|auto]].
    destruct s; simpl in *; subst. reflexivity.
  - inversion Hnd as [|? ? Hnr Hndr]; subst.
    destruct (version_file s v n) as [c|] eqn:Hc;
      [|exfalso; now apply (Hsrc n (or_introl eq_refl))].
    set (d1 := <[n := LFile c]> d).
    assert (Hcp : copy2 v n s = (Ok tt, set_latest s (NDir d1))).
    { unfold copy2, bind, get, put. rewrite Hc, Hl, (Hnone n (or_introl eq_refl)).
      reflexivity. }
    destruct (IH (set_latest s (NDir d1)) d1) as [d' [Hrun [Hin Hout]]];
      [reflexivity|exact Hndr|..].
    { intros m Hm. unfold d1. rewrite lookup_insert_ne by (intros ->; contradiction).
      apply Hnone. now right. }
    { intros m Hm. rewrite (version_file_same s) by reflexivity.
      apply Hsrc. now right. }
    exists d'. simpl. rewrite (bind_ok_step _ _ _ _ _ Hcp), Hrun.
    split; [reflexivity|]. split.
    + intros m c' [<-|Hm] Hc'.
      * rewrite (Hout n Hnr). unfold d1. rewrite lookup_insert_eq. congruence.
      * apply Hin; [exact Hm|]. rewrite (version_file_same s) by reflexivity.
        exact Hc'.
    + intros m Hm. rewrite Hout by (intros H; apply Hm; now right).
      unfold d1. rewrite lookup_insert_ne by (intros ->; apply Hm; now left).
      reflexivity.
Qed.

Lemma update_latest_clean (lr so : bool) (v : string) (s : store) :
  (exists d, latest_node s = NDir d) -> latest_clean s ->
  (forall n, In n latest_names -> version_file s v n <> None) ->
  exists s1, update_latest lr so v s = (Ok tt, s1)
  /\ versions_node s1 = versions_node s /\ metadata_file s1 = metadata_file s
  /\ (exists d, latest_node s1 = NDir d)
  /\ (forall n c, In n latest_names -> version_file s v n = Some c ->
        latest_entry s1 n = Some (promoted_entry lr so v n c)).
Proof.
  intros Hd Hclean Hsrc.
  destruct (remove_loop_effect latest_names s) as [Hv [Hnone He]].
  set (sr := snd (mapM_ remove_if_exists latest_names s)) in *.
  pose proof (remove_loop_ok latest_names s) as Hrm. fold sr in Hrm.
  assert (Hdr : exists d, latest_node sr = NDir d).
  { apply (preserves_mapM_ (fun s => exists d, latest_node s = NDir d)); auto.
    intros; apply remove_if_exists_latest_dir. }
  assert (Hmr : metadata_file sr = metadata_file s).
  { apply (preserves_mapM_ (fun s0 => metadata_file s0 = metadata_file s)); auto.
    intros; apply remove_if_exists_meta. }
  destruct Hdr as [dr Hdr].
  assert (Hempty : forall n, In n latest_names -> dr !! n = None).
  { intros n Hn. specialize (Hnone n Hn).
    assert (Hle : latest_entry sr n = dr !! n) by (unfold latest_entry; now rewrite Hdr).
    rewrite <- Hle.
    destruct (He n) as [H0|H0]; [exact H0|].
    destruct (Hclean n Hn) as [H1|H1]; [congruence|].
    exfalso. apply H1. unfold latest_file in *. rewrite <- H0.
    destruct (latest_entry sr n) as [e|]; auto.
    now rewrite <- (resolve_versions s sr e Hv). }
  assert (Hsrc' : forall n, In n latest_names -> version_file sr v n <> None).
  { intros n Hn. rewrite (version_file_same s) by exact Hv. now apply Hsrc. }
  unfold update_latest. rewrite (bind_ok_step _ _ _ _ _ Hrm).
  destruct so.
  - destruct (symlink_loop lr v latest_names sr dr Hdr latest_names_nodup Hempty)
      as [d' [Hrun [Hin _]]].
    exists (set_latest sr (NDir d')). unfold try_except. rewrite Hrun.
    split; [reflexivity|]. split; [exact Hv|]. split; [exact Hmr|].
    split; [eauto|].
    intros n c Hn _. unfold latest_entry. simpl. now rewrite Hin.
  - destruct (copy_loop v latest_names sr dr Hdr latest_names_nodup Hempty Hsrc')
      as [d' [Hrun [Hin _]]].
    assert (Hfail : mapM_ (symlink_to lr false v) latest_names sr
                    = (Err SymlinkUnsupported, sr)).
    { simpl. apply bind_err_step. unfold symlink_to, bind, get, raise.
      rewrite Hdr, (Hempty "price_model.pkl"); [reflexivity|now left]. }
    exists (set_latest sr (NDir d')). unfold try_except. rewrite Hfail.
    cbn [is_os_error]. rewrite Hrun.
    split; [reflexivity|]. split; [exact Hv|]. split; [exact Hmr|].
    split; [eauto|].
    intros n c Hn Hc. unfold latest_entry. simpl. apply Hin; [exact Hn|].
    rewrite (version_file_same s) by exact Hv. exact Hc.
Qed.

(** ** A save, a load and the constructor *)

Lemma save_artifacts_effect (lr so : bool) (model preprocessor : json)
    (feature_info : list (string * json)) (metrics params : json)
    (version : option string) (now : string) (s : store) (v : string) (s' : store) :
  dirs_ok s -> latest_clean s ->
  save_artifacts lr so model preprocessor feature_info metrics params version now s
    = (Ok v, s') ->
  let md := build_metadata v now metrics params feature_info in
  (forall n c, In (n, c) (bundle model preprocessor feature_info md) ->
     version_file s' v n = Some c /\ latest_entry s' n = Some (promoted_entry lr so v n c))
  /\ (forall y h, y <> v -> version_file s' y h = version_file s y h)
  /\ (exists c, prior_catalog s = Some c
                /\ metadata_file s' = Some (CatDoc (update_catalog c md)))
  /\ dirs_ok s'.
Proof.
  intros [[dv Hdv] [dl Hdl]] Hclean H md.
  destruct (save_ok_inv _ _ _ _ _ _ _ _ _ _ _ _ H)
    as [se [sf [Lse [Mse [[de Hde] [Hb [Hmono [Hother [Hul Hug]]]]]]]]].
  fold md in Hb, Hug.
  assert (Hclean' : latest_clean se).
  { intros n Hn. rewrite (latest_entry_same s se) by exact Lse.
    destruct (Hclean n Hn) as [H0|H0]; [now left|right].
    unfold latest_file in *. rewrite (latest_entry_same s se) by exact Lse.
    destruct (latest_entry s n) as [[c|[x g|]]|]; simpl in *; auto. }
  assert (Hsrc : forall n, In n latest_names -> version_file se v n <> None).
  { intros n Hn. simpl in Hn.
    destruct Hn as [<-|[<-|[<-|[<-|[]]]]]; erewrite Hb by (simpl; eauto 6);
      discriminate. }
  destruct (update_latest_clean lr so v se ltac:(rewrite Lse; eauto) Hclean' Hsrc)
    as [s1 [Hul' [Vs1 [Ms1 [[d1 Hd1] Hent]]]]].
  rewrite Hul in Hul'. injection Hul' as <-.
  rewrite update_global_metadata_spec in Hug.
  assert (Hpc : prior_catalog sf = prior_catalog s)
    by (unfold prior_catalog; now rewrite Ms1, Mse).
  rewrite Hpc in Hug.
  destruct (prior_catalog s) as [c|] eqn:Hc; [|discriminate].
  injection Hug as <-.
  split; [|split; [|split]].
  - intros n c' Hin. split.
    + rewrite (version_file_same se) by (simpl; exact Vs1). now apply Hb.
    + rewrite (latest_entry_same sf) by reflexivity.
      apply Hent; [|now apply Hb].
      simpl in Hin. destruct Hin as [Hn|[Hn|[Hn|[Hn|[]]]]]; injection Hn as <- _;
        simpl; auto 6.
  - intros y h Hyv. rewrite (version_file_same se) by (simpl; exact Vs1).
    now apply Hother.
  - exists c. split; reflexivity.
  - split; [exists de; simpl; congruence|exists d1; exact Hd1].
Qed.

Lemma init_ok_eq (s s' : store) :
  init s = (Ok tt, s') ->
  versions_node s' = match versions_node s with NAbsent => NDir ∅ | n => n end
  /\ latest_node s' = match latest_node s with NAbsent => NDir ∅ | n => n end
  /\ metadata_file s' = metadata_file s
  /\ versions_node s <> NFile /\ latest_node s <> NFile.
Proof.
  unfold init, bind, get, put, ret, raise.
  destruct (versions_node s) as [| |d1] eqn:H1; simpl;
  destruct (latest_node s) as [| |d2] eqn:H2; simpl; intros H; try discriminate;
  injection H as <-; simpl; rewrite ?H1, ?H2; repeat split; congruence.
Qed.

Lemma init_id (s : store) : dirs_ok s -> init s = (Ok tt, s).
Proof.
  intros [[d1 H1] [d2 H2]]. unfold init, bind, get, ret. rewrite H1. simpl.
  rewrite H2. reflexivity.
Qed.

Lemma init_clean (s s' : store) : init s = (Ok tt, s') -> latest_clean s -> latest_clean s'.
Proof.
  intros H Hc. destruct (init_ok_eq s s' H) as [Hv [Hl [_ [_ HnF]]]].
  intros n Hn. unfold latest_file, latest_entry. rewrite Hl.
  destruct (latest_node s) as [| |d] eqn:Hls; [left; apply lookup_empty|congruence|].
  specialize (Hc n Hn). unfold latest_file, latest_entry in Hc. rewrite Hls in Hc.
  destruct Hc as [Hc|Hc]; [now left|right].
  destruct (d !! n) as [e|]; [|congruence].
  destruct e as [c|[x g|]]; simpl in *; auto.
  unfold version_file in *. rewrite Hv.
  destruct (versions_node s); simpl in *; auto; congruence.
Qed.


(** ** The metrics patch after a save, and the pipeline *)

Lemma attach_metrics_ok (v : string) (m : json) (kv : list (string * json)) (s : store) :
  version_file s v "metadata.json" = Some (CJson (JObj kv)) ->
  exists s1, attach_metrics v m s = (Ok tt, s1)
  /\ latest_node s1 = latest_node s /\ metadata_file s1 = metadata_file s
  /\ (forall y h, version_file s1 y h =
        if String.eqb y v && String.eqb h "metadata.json"
        then Some (CJson (JObj (dict_set kv "metrics" m))) else version_file s y h).
Proof.
  intros Hf. unfold version_file in Hf.
  destruct (versions_node s) as [| |d] eqn:Hv; try discriminate.
  destruct (d !! v) as [[fs|c]|] eqn:Hdv; try discriminate.
  destruct (write_version_file v "metadata.json" (CJson (JObj (dict_set kv "metrics" m))) s)
    as [r s1] eqn:Hw.
  assert (Hr : r = Ok tt).
  { unfold write_version_file, bind, get, put in Hw. rewrite Hv, Hdv in Hw. congruence. }
  subst r.
  assert (Hp : patch_metrics v m s = (Ok tt, s1)).
  { unfold patch_metrics. rewrite (bind_ok_step _ _ s s s) by reflexivity. cbv beta.
    rewrite Hv, Hdv, Hf. rewrite (bind_ok_step _ _ s (JObj kv) s) by reflexivity.
    exact Hw. }
  destruct (write_version_file_ok_eq _ _ _ _ _ Hw) as [L [Me [_ V]]].
  exists s1. split; [|auto].
  unfold attach_metrics, try_except. now rewrite Hp.
Qed.

Lemma pipeline_effect (lr so : bool) (model preprocessor : json)
    (feature_info : list (string * json)) (metrics : json) (now : string)
    (s : store) (v : string) (s' : store) :
  preprocessor <> JNull -> latest_clean s ->
  pipeline_artifacts lr so model preprocessor feature_info metrics now s = (Ok v, s') ->
  exists s0 s1,
    init s = (Ok tt, s0) /\ dirs_ok s0 /\ latest_clean s0
    /\ save_artifacts lr so model preprocessor feature_info (JObj []) train_params
         None now s0 = (Ok v, s1)
    /\ latest_node s' = latest_node s1 /\ metadata_file s' = metadata_file s1
    /\ (forall y h, version_file s' y h =
          if String.eqb y v && String.eqb h "metadata.json"
          then Some (CJson (metadata_json
                             (build_metadata v now metrics train_params feature_info)))
          else version_file s1 y h).
Proof.
  intros Hp Hc H. unfold pipeline_artifacts in H.
  apply bind_ok_inv in H as [v' [s1 [Ht H]]].
  apply bind_ok_inv in H as [[] [s2 [Hi H]]].
  apply bind_ok_inv in H as [[] [s3 [Ha H]]].
  unfold ret in H. injection H as -> ->.
  unfold train_models_save in Ht. apply bind_ok_inv in Ht as [[] [s0 [Hi0 Ht]]].
  assert (Hsave : save_artifacts lr so model preprocessor feature_info (JObj [])
                    train_params None now s0 = (Ok v, s1))
    by (destruct preprocessor; [congruence|..]; exact Ht).
  pose proof (init_ok_dirs _ _ Hi0) as Hd0.
  pose proof (init_clean _ _ Hi0 Hc) as Hc0.
  destruct (save_artifacts_effect _ _ _ _ _ _ _ _ _ _ _ _ Hd0 Hc0 Hsave)
    as [Hb [_ [_ Hd1]]].
  rewrite (init_id s1 Hd1) in Hi. injection Hi as <-.
  destruct (Hb "metadata.json" _ ltac:(simpl; auto 6)) as [Hmf _].
  destruct (attach_metrics_ok v metrics _ s1 Hmf) as [s3' [Ha' [L [M V]]]].
  rewrite Ha in Ha'. injection Ha' as <-.
  exists s0, s1. split; [exact Hi0|]. split; [exact Hd0|]. split; [exact Hc0|].
  split; [exact Hsave|]. split; [exact L|]. split; [exact M|].
  intros y h. rewrite V. reflexivity.
Qed.

(** ** Saves that raise *)


Lemma remove_if_exists_keeps_unresolved (m n : string) (e : lentry) :
  preserves (fun s => latest_entry s n = Some e /\ resolve s e = None)
    (remove_if_exists m).
Proof.
  intros s [He Hr]. unfold remove_if_exists, bind, get, put, ret.
  destruct (latest_file s m) eqn:Hm; [|simpl; auto].
  destruct (latest_node s) as [| |d] eqn:Hl; simpl; auto.
  destruct (decide (m = n)) as [->|Hne].
  - unfold latest_file in Hm. rewrite He, Hr in Hm. discriminate.
  - split.
    + unfold latest_entry in *. simpl. rewrite Hl in He.
      rewrite lookup_delete_ne by congruence. exact He.
    + rewrite <- Hr. now apply resolve_versions.
Qed.

Lemma update_latest_unresolved (lr so : bool) (v : string) (s : store) :
  latest_entry s "price_model.pkl" = Some (LLink TNowhere) ->
  exists e s1, update_latest lr so v s = (Err e, s1).
Proof.
  intros He.
  set (sr := snd (mapM_ remove_if_exists latest_names s)).
  pose proof (remove_loop_ok latest_names s) as Hrm. fold sr in Hrm.
  assert (Her : latest_entry sr "price_model.pkl" = Some (LLink TNowhere)).
  { apply (preserves_mapM_ (fun s => latest_entry s "price_model.pkl" = Some (LLink TNowhere)
                                     /\ resolve s (LLink TNowhere) = None)); auto.
    intros; apply remove_if_exists_keeps_unresolved. }
  unfold latest_entry in Her.
  destruct (latest_node sr) as [| |d] eqn:Hl; try discriminate.
  assert (Hsym : mapM_ (symlink_to lr so v) latest_names sr = (Err FileExistsError, sr)).
  { simpl. apply bind_err_step. unfold symlink_to, bind, get, raise.
    rewrite Hl, Her. reflexivity. }
  assert (Hcp : exists e s1, mapM_ (copy2 v) latest_names sr = (Err e, s1)).
  { simpl. unfold bind at 1.
    assert (H2 : exists e, copy2 v "price_model.pkl" sr = (Err e, sr)).
    { unfold copy2, bind, get, raise.
      destruct (version_file sr v "price_model.pkl"); eauto.
      rewrite Hl, Her. eauto. }
    destruct H2 as [e H2]. rewrite H2. eauto. }
  destruct Hcp as [e [s1 Hcp]].
  exists e, s1. unfold update_latest. rewrite (bind_ok_step _ _ _ _ _ Hrm).
  unfold try_except. rewrite Hsym. cbn [is_os_error]. exact Hcp.
Qed.


Lemma save_raises_on_nowhere (lr so : bool) (model preprocessor : json)
    (feature_info : list (string * json)) (metrics params : json)
    (version : option string) (now : string) (s : store) :
  latest_entry s "price_model.pkl" = Some (LLink TNowhere) ->
  exists e s', save_artifacts lr so model preprocessor feature_info metrics params
                 version now s = (Err e, s').
Proof.
  intros He.
  destruct (save_artifacts lr so model preprocessor feature_info metrics params
              version now s) as [[v|e] s'] eqn:H; [exfalso|eauto].
  destruct (save_ok_inv _ _ _ _ _ _ _ _ _ _ _ _ H)
    as [se [sf [Lse [_ [_ [_ [_ [_ [Hul _]]]]]]]]].
  assert (He' : latest_entry se "price_model.pkl" = Some (LLink TNowhere))
    by (rewrite (latest_entry_same s se) by exact Lse; exact He).
  destruct (update_latest_unresolved lr so v se He') as [e [s1 Hu]].
  congruence.
Qed.

Lemma relative_save_links (model preprocessor : json)
    (feature_info : list (string * json)) (metrics params : json)
    (version : option string) (now : string) (s : store) (v : string) (s' : store) :
  dirs_ok s -> latest_clean s ->
  save_artifacts false true model preprocessor feature_info metrics params version now s
    = (Ok v, s') ->
  (forall n, In n latest_names -> latest_entry s' n = Some (LLink TNowhere))
  /\ dirs_ok s'.
Proof.
  intros Hd Hc H.
  destruct (save_artifacts_effect _ _ _ _ _ _ _ _ _ _ _ _ Hd Hc H) as [Hb [_ [_ Hd']]].
  split; [|exact Hd'].
  intros n Hn.
  assert (Hin : exists c, In (n, c) (bundle model preprocessor feature_info
                                      (build_metadata v now metrics params feature_info)))
    by (simpl in Hn; destruct Hn as [<-|[<-|[<-|[<-|[]]]]]; eexists; simpl; eauto 6).
  destruct Hin as [c Hin]. destruct (Hb n c Hin) as [_ Hl]. exact Hl.
Qed.



Lemma get_version_info_some (s : store) (v : string) (j : json) :
  version_file s v "metadata.json" = Some (CJson j) ->
  get_version_info (Some v) s = (Ok j, s).
Proof.
  intros H. unfold get_version_info, bind, get. cbv beta iota zeta.
  rewrite H. reflexivity.
Qed.

Lemma get_version_info_none (s : store) (r : option content) :
  latest_file s "metadata.json" = r ->
  get_version_info None s =
    match r with
    | Some c => json_load c s
    | None => (Err (FileNotFoundError "Metadata not found for version None"), s)
    end.
Proof.
  intros H. unfold get_version_info, bind, get. cbv beta iota zeta.
  rewrite H. destruct r; reflexivity.
Qed.

Lemma dict_get_None (kv : list (string * json)) (c : string) :
  dict_get kv c = None <-> ~ In c (map fst kv).
Proof.
  induction kv as [|[k x] r IH]; simpl; [tauto|].
  destruct (String.eqb c k) eqn:E.
  - apply String.eqb_eq in E. subst. split; [discriminate|].
    intros H. exfalso. apply H. now left.
  - apply String.eqb_neq in E. rewrite IH. split.
    + intros H [H'|H']; [congruence|contradiction].
    + auto.
Qed.



(** ** Saving and reading back *)



(** ** Links that do not resolve *)





(** ** Saves that raise and the global catalog *)





(** ** The constructor *)

(** (X6) When [ArtifactManager()] succeeds, neither [versions/] nor
    [latest/] was a plain file; it has created each one that was missing
    as an empty directory, kept an existing one with its contents, and left
    the global catalog file alone, and running it again changes nothing. *)
Theorem init_creates_only_missing (s s' : store) :
  init s = (Ok tt, s') ->
  versions_node s <> NFile /\ latest_node s <> NFile
  /\ versions_node s' = match versions_node s with NAbsent => NDir ∅ | n => n end
  /\ latest_node s' = match latest_node s with NAbsent => NDir ∅ | n => n end
  /\ metadata_file s' = metadata_file s
  /\ init s' = (Ok tt, s').
Proof.
  intros H. destruct (init_ok_eq s s' H) as [Hv [Hl [Hm [Hv' Hl']]]].
  split; [exact Hv'|split; [exact Hl'|split; [exact Hv|split; [exact Hl|split; [exact Hm|]]]]].
  apply init_id, (init_ok_dirs s). exact H.
Qed.

Lemma init_creates_only_missing_witness :
  let s := {| versions_node := NDir (list_to_map [("v1.0.0", VDir ∅)]);
              latest_node := NAbsent; metadata_file := None |} in
  versions_node s <> NFile /\ latest_node s <> NFile
  /\ versions_node (snd (init s)) = versions_node s
  /\ latest_node (snd (init s)) = NDir ∅
  /\ metadata_file (snd (init s)) = metadata_file s
  /\ init (snd (init s)) = (Ok tt, snd (init s)).
Proof.
  intros s.
  exact (init_creates_only_missing s (snd (init s)) ltac:(vm_compute; reflexivity)).
Defined.

(** ** The pipeline's metrics patch *)

Lemma pipeline_files (lr so : bool) (model preprocessor : json)
    (feature_info : list (string * json)) (metrics : json) (now : string)
    (s : store) (v : string) (s' : store) :
  preprocessor <> JNull -> latest_clean s ->
  pipeline_artifacts lr so model preprocessor feature_info metrics now s = (Ok v, s') ->
  version_file s' v "metadata.json"
    = Some (CJson (metadata_json (build_metadata v now metrics train_params feature_info)))
  /\ latest_entry s' "metadata.json"
     = Some (promoted_entry lr so v "metadata.json"
               (CJson (metadata_json
                         (build_metadata v now (JObj []) train_params feature_info))))
  /\ exists c, metadata_file s' = Some (CatDoc
                 (update_catalog c (build_metadata v now (JObj []) train_params feature_info))).
Proof.
  intros Hp Hc H.
  destruct (pipeline_effect _ _ _ _ _ _ _ _ _ _ Hp Hc H)
    as [s0 [s1 [_ [Hd0 [Hc0 [Hs [L [Me V]]]]]]]].
  destruct (save_artifacts_effect _ _ _ _ _ _ _ _ _ _ _ _ Hd0 Hc0 Hs)
    as [Hb [_ [[c [_ Hcat]] _]]].
  split; [|split].
  - rewrite V, String.eqb_refl. reflexivity.
  - rewrite (latest_entry_same s1 s') by exact L.
    destruct (Hb "metadata.json" _ ltac:(simpl; right; right; right; left; reflexivity))
      as [_ Hl].
    exact Hl.
  - exists c. rewrite Me. exact Hcat.
Qed.

(** (X7) After [run_pipeline]'s steps on the store succeed, the metadata of
    the new version holds the evaluation metrics, while what
    [get_version_info(None)] (the [latest/] copy) returns depends on how
    [latest/] was filled: through links that resolve it sees the patched
    metrics; through links that do not resolve it raises; with copies it
    returns the metadata written before the patch, with [metrics = {}]. *)
Theorem pipeline_metrics_visibility (lr so : bool) (model preprocessor : json)
    (feature_info : list (string * json)) (metrics : json) (now : string)
    (s : store) (v : string) (s' : store) :
  preprocessor <> JNull -> latest_clean s ->
  pipeline_artifacts lr so model preprocessor feature_info metrics now s = (Ok v, s') ->
  get_version_info (Some v) s'
    = (Ok (metadata_json (build_metadata v now metrics train_params feature_info)), s')
  /\ get_version_info None s'
     = if so then
         if lr then
           (Ok (metadata_json (build_metadata v now metrics train_params feature_info)), s')
         else (Err (FileNotFoundError "Metadata not found for version None"), s')
       else
         (Ok (metadata_json (build_metadata v now (JObj []) train_params feature_info)), s').
Proof.
  intros Hp Hc H.
  destruct (pipeline_files _ _ _ _ _ _ _ _ _ _ Hp Hc H) as [Hv [Hl _]].
  split; [now apply get_version_info_some|].
  unfold promoted_entry in Hl.
  destruct so, lr.
  - rewrite (get_version_info_none s' (Some (CJson (metadata_json
               (build_metadata v now metrics train_params feature_info))))).
    + reflexivity.
    + unfold latest_file. rewrite Hl. exact Hv.
  - rewrite (get_version_info_none s' None); [reflexivity|].
    unfold latest_file. rewrite Hl. reflexivity.
  - rewrite (get_version_info_none s' (Some (CJson (metadata_json
               (build_metadata v now (JObj []) train_params feature_info))))).
    + reflexivity.
    + unfold latest_file. rewrite Hl. reflexivity.
  - rewrite (get_version_info_none s' (Some (CJson (metadata_json
               (build_metadata v now (JObj []) train_params feature_info))))).
    + reflexivity.
    + unfold latest_file. rewrite Hl. reflexivity.
Qed.

Lemma pipeline_metrics_visibility_witness :
  let fi := preprocess_feature_info ["room_type"] ["accommodates"] in
  let m := JObj [("rmse", JNum 50)] in
  let r := pipeline_artifacts false false (JStr "model") (JStr "preprocessor") fi m
             "2024-01-01T00:00:00" empty_disk in
  get_version_info (Some "v1.0.0") (snd r)
    = (Ok (metadata_json (build_metadata "v1.0.0" "2024-01-01T00:00:00" m
                            train_params fi)), snd r)
  /\ get_version_info None (snd r)
     = (Ok (metadata_json (build_metadata "v1.0.0" "2024-01-01T00:00:00" (JObj [])
                             train_params fi)), snd r).
Proof.
  intros fi m r.
  exact (pipeline_metrics_visibility false false (JStr "model") (JStr "preprocessor") fi m
           "2024-01-01T00:00:00" empty_disk "v1.0.0" (snd r)
           ltac:(discriminate) ltac:(intros n _; left; reflexivity)
           ltac:(vm_compute; reflexivity)).
Defined.

(** (X8) After [run_pipeline]'s steps on the store succeed, the global
    catalog names the new version as latest, but every summary it keeps
    for that version has [metrics = {}], the value of the save inside
    [train_models]: the later metrics patch does not reach the catalog. *)
Theorem pipeline_catalog_metrics_empty (lr so : bool) (model preprocessor : json)
    (feature_info : list (string * json)) (metrics : json) (now : string)
    (s : store) (v : string) (s' : store) :
  preprocessor <> JNull -> latest_clean s ->
  pipeline_artifacts lr so model preprocessor feature_info metrics now s = (Ok v, s') ->
  exists c, metadata_file s' = Some (CatDoc c)
  /\ latest_version c = Some v
  /\ (exists x, In x (catalog_versions c) /\ s_version x = v)
  /\ forall x, In x (catalog_versions c) -> s_version x = v -> s_metrics x = JObj [].
Proof.
  intros Hp Hc H.
  destruct (pipeline_files _ _ _ _ _ _ _ _ _ _ Hp Hc H) as [_ [_ [c Hm]]].
  set (md0 := build_metadata v now (JObj []) train_params feature_info) in Hm.
  exists (update_catalog c md0). split; [exact Hm|split; [reflexivity|]].
  pose proof (update_catalog_versions c md0) as Hperm.
  split.
  - exists (version_info md0). split; [|reflexivity].
    apply (Permutation_in _ (Permutation_sym Hperm)).
    apply in_or_app. right. now left.
  - intros x Hx Hxv.
    apply (Permutation_in _ Hperm), in_app_or in Hx as [Hx|[<-|[]]].
    + apply filter_In in Hx as [_ Hneq]. simpl in Hneq.
      rewrite Hxv, String.eqb_refl in Hneq. discriminate.
    + reflexivity.
Qed.

Lemma pipeline_catalog_metrics_empty_witness :
  let fi := preprocess_feature_info ["room_type"] ["accommodates"] in
  let r := pipeline_artifacts true true (JStr "model") (JStr "preprocessor") fi
             (JObj [("rmse", JNum 50)]) "2024-01-01T00:00:00" empty_disk in
  exists c, metadata_file (snd r) = Some (CatDoc c)
  /\ latest_version c = Some "v1.0.0"
  /\ (exists x, In x (catalog_versions c) /\ s_version x = "v1.0.0")
  /\ forall x, In x (catalog_versions c) -> s_version x = "v1.0.0" -> s_metrics x = JObj [].
Proof.
  intros fi r.
  exact (pipeline_catalog_metrics_empty true true (JStr "model") (JStr "preprocessor") fi
           (JObj [("rmse", JNum 50)]) "2024-01-01T00:00:00" empty_disk "v1.0.0" (snd r)
           ltac:(discriminate) ltac:(intros n _; left; reflexivity)
           ltac:(vm_compute; reflexivity)).
Defined.

(** ** [PricePredictor] *)



(** (X10) [_validate_features] on a dict of features: it raises
    [ValueError] exactly when some required column (categorical or
    numerical) is missing, and the error carries the nonempty set of the
    missing columns; otherwise it returns the required columns, in the
    order categorical then numerical, each with the value the dict gives
    it, and drops every other key. *)
Theorem validate_features_spec (categorical_cols numerical_cols : list string)
    (features : list (string * json)) :
  match validate_features categorical_cols numerical_cols features with
  | inl e =>
      exists missing, e = PValueError missing /\ missing <> ∅
      /\ forall c, c ∈ missing <->
           In c (categorical_cols ++ numerical_cols)%list /\ ~ In c (map fst features)
  | inr df =>
      map fst df = (categorical_cols ++ numerical_cols)%list
      /\ (forall c, In c (categorical_cols ++ numerical_cols)%list -> In c (map fst features))
      /\ Forall (fun cv => dict_get features cv.1 = Some cv.2) df
  end.
Proof.
  unfold validate_features. cbv zeta.
  destruct (decide _) as [Hm|Hm].
  - assert (Hin : forall c, In c (categorical_cols ++ numerical_cols)%list ->
                            In c (map fst features)).
    { intros c Hc. apply list_elem_of_In.
      destruct (decide (c ∈ map fst features)) as [Hf|Hf]; [exact Hf|exfalso].
      assert (Hc' : c ∈ (∅ : gset string)).
      { rewrite <- Hm. apply elem_of_difference.
        rewrite !elem_of_list_to_set, list_elem_of_In. auto. }
      apply elem_of_empty in Hc'. exact Hc'. }
    split; [|split; [exact Hin|]].
    + rewrite map_map. apply map_id.
    + apply Forall_forall. intros [c x] Hcx.
      apply list_elem_of_In, in_map_iff in Hcx as [c' [Heq Hc']]. injection Heq as <- <-. simpl.
      destruct (dict_get features c') eqn:E; [reflexivity|].
      apply dict_get_None in E. exfalso. exact (E (Hin c' Hc')).
  - exists ((list_to_set (categorical_cols ++ numerical_cols) : gset string)
              ∖ list_to_set (map fst features)).
    split; [reflexivity|split; [exact Hm|]].
    intros c. rewrite elem_of_difference, !elem_of_list_to_set, !list_elem_of_In.
    tauto.
Qed.

(** (X11) [predict] on a dict depends only on the values of the required
    columns: two feature dicts that agree on every required column (either
    both lack it or both give it the same value) yield the same prediction
    or the same error, whatever extra keys and key order they have. *)
Theorem predict_dict_required_only {T P : Type}
    (transform : list (string * json) -> pexc + T) (model_predict : T -> pexc + P)
    (categorical_cols numerical_cols : list string)
    (f1 f2 : list (string * json)) :
  (forall c, In c (categorical_cols ++ numerical_cols)%list -> dict_get f1 c = dict_get f2 c) ->
  predict_dict transform model_predict categorical_cols numerical_cols f1
  = predict_dict transform model_predict categorical_cols numerical_cols f2.
Proof.
  intros Hagree.
  assert (Hv : validate_features categorical_cols numerical_cols f1
               = validate_features categorical_cols numerical_cols f2).
  { unfold validate_features. cbv zeta.
    assert (Hset : (list_to_set (categorical_cols ++ numerical_cols) : gset string)
                     ∖ list_to_set (map fst f1)
                   = list_to_set (categorical_cols ++ numerical_cols)
                     ∖ list_to_set (map fst f2)).
    { apply set_eq. intros c.
      rewrite !elem_of_difference, !elem_of_list_to_set, !list_elem_of_In.
      split; intros [Hr Hn]; split; auto.
      - apply dict_get_None. rewrite <- (Hagree c Hr). now apply dict_get_None.
      - apply dict_get_None. rewrite (Hagree c Hr). now apply dict_get_None. }
    rewrite Hset. destruct (decide _); [|reflexivity].
    f_equal. apply map_ext_in. intros c Hc. now rewrite (Hagree c Hc). }
  unfold predict_dict. now rewrite Hv.
Qed.

Lemma predict_dict_required_only_witness :
  let transform := fun (df : list (string * json)) => inr (map snd df) : pexc + list json in
  let model_predict := fun (l : list json) => inr (length l) : pexc + nat in
  predict_dict transform model_predict ["room_type"] ["accommodates"]
    [("accommodates", JNum 2); ("room_type", JStr "Private room")]
  = predict_dict transform model_predict ["room_type"] ["accommodates"]
      [("room_type", JStr "Private room"); ("city", JStr "Paris");
       ("accommodates", JNum 2)].
Proof.
  intros transform model_predict.
  exact (predict_dict_required_only transform model_predict ["room_type"] ["accommodates"]
           [("accommodates", JNum 2); ("room_type", JStr "Private room")]
           [("room_type", JStr "Private room"); ("city", JStr "Paris");
            ("accommodates", JNum 2)]
           ltac:(intros c [<-|[<-|[]]]; reflexivity)).
Defined.

(** ** The global catalog and the listing *)

(** (X12) Recording a save in the global catalog keeps every summary of the
    other versions: a summary whose version id differs from the new one is
    in the new list exactly when it was in the old one, and the new list
    is the old list without the new id's summaries, plus one. *)
Theorem update_global_metadata_keeps_others (md : run_metadata) (s s' : store) :
  update_global_metadata md s = (Ok tt, s') ->
  exists c, prior_catalog s = Some c
  /\ metadata_file s' = Some (CatDoc (update_catalog c md))
  /\ length (catalog_versions (update_catalog c md))
     = length (List.filter (fun x => negb (String.eqb (s_version x) (md_version md)))
                 (catalog_versions c)) + 1
  /\ forall x, s_version x <> md_version md ->
       (In x (catalog_versions (update_catalog c md)) <-> In x (catalog_versions c)).
Proof.
  rewrite update_global_metadata_spec.
  destruct (prior_catalog s) as [c|]; [|discriminate].
  intros H. injection H as <-.
  exists c. split; [reflexivity|split; [reflexivity|]].
  pose proof (update_catalog_versions c md) as Hperm.
  split.
  - rewrite (Permutation_length Hperm), length_app. reflexivity.
  - intros x Hx. split.
    + intros Hin. apply (Permutation_in _ Hperm), in_app_or in Hin as [Hin|[<-|[]]].
      * apply filter_In in Hin. tauto.
      * contradiction.
    + intros Hin. apply (Permutation_in _ (Permutation_sym Hperm)), in_or_app. left.
      apply filter_In. split; [exact Hin|].
      apply String.eqb_neq in Hx. now rewrite Hx.
Qed.

Lemma update_global_metadata_keeps_others_witness :
  let old := {| s_version := "v1.0.0"; s_timestamp := "2024-01-01T00:00:00";
                s_metrics := JObj []; s_model_type := "RandomForestRegressor" |} in
  let s := set_metadata_file (snd (init empty_disk))
             (Some (CatDoc {| latest_version := Some "v1.0.0";
                              last_updated := Some "2024-01-01T00:00:00";
                              versions := Some [old] |})) in
  let md := build_metadata "v1.0.1" "2024-01-02T00:00:00" (JObj []) train_params [] in
  In old (match metadata_file (snd (update_global_metadata md s)) with
          | Some (CatDoc c) => catalog_versions c
          | _ => []
          end).
Proof.
  intros old s md.
  destruct (update_global_metadata_keeps_others md s (snd (update_global_metadata md s))
              ltac:(vm_compute; reflexivity)) as [c [Hc [Hm [_ Hkeep]]]].
  rewrite Hm. apply Hkeep; [discriminate|].
  injection Hc as <-. left. reflexivity.
Defined.



(** (X14) On a platform that makes symbolic links, with the relative
    default artifacts directory: once [run_pipeline]'s steps on the store
    have succeeded, running them again with a fitted preprocessor raises,
    whatever the model, data and metrics. *)
Theorem relative_links_second_pipeline_raises (model preprocessor : json)
    (feature_info : list (string * json)) (metrics : json) (now : string)
    (s : store) (v : string) (s' : store) :
  preprocessor <> JNull -> latest_clean s ->
  pipeline_artifacts false true model preprocessor feature_info metrics now s = (Ok v, s') ->
  forall (model' preprocessor' : json) (feature_info' : list (string * json))
         (metrics' : json) (now' : string),
  preprocessor' <> JNull ->
  exists e s'', pipeline_artifacts false true model' preprocessor' feature_info' metrics'
                  now' s' = (Err e, s'').
Proof.
  intros Hp Hc H model' preprocessor' feature_info' metrics' now' Hp'.
  destruct (pipeline_effect _ _ _ _ _ _ _ _ _ _ Hp Hc H)
    as [s0 [s1 [_ [Hd0 [Hc0 [Hs [L _]]]]]]].
  destruct (relative_save_links _ _ _ _ _ _ _ _ _ _ Hd0 Hc0 Hs) as [Hl _].
  assert (Hl' : latest_entry s' "price_model.pkl" = Some (LLink TNowhere))
    by (rewrite (latest_entry_same s1 s') by exact L; apply Hl; simpl; auto).
  destruct (init s') as [[[]|e] s0'] eqn:Hi.
  - assert (He0 : latest_entry s0' "price_model.pkl" = Some (LLink TNowhere)).
    { destruct (init_ok_eq s' s0' Hi) as [_ [Hl0 _]].
      unfold latest_entry in Hl' |- *. rewrite Hl0.
      destruct (latest_node s'); try discriminate. exact Hl'. }
    destruct (save_raises_on_nowhere false true model' preprocessor' feature_info'
                (JObj []) train_params None now' s0' He0) as [e [s2 Hs2]].
    assert (Ht : train_models_save false true model' preprocessor' (Some feature_info')
                   None now' s' = (Err e, s2)).
    { unfold train_models_save. rewrite (bind_ok_step _ _ _ _ _ Hi).
      destruct preprocessor'; [congruence|..]; exact Hs2. }
    exists e, s2. unfold pipeline_artifacts. now rewrite (bind_err_step _ _ _ _ _ Ht).
  - exists e, s0'. unfold pipeline_artifacts, train_models_save.
    rewrite (bind_err_step _ _ _ _ _ (bind_err_step _ _ _ _ _ Hi)). reflexivity.
Qed.

Lemma relative_links_second_pipeline_raises_witness :
  let fi := preprocess_feature_info ["room_type"] ["accommodates"] in
  let r := pipeline_artifacts false true (JStr "model") (JStr "preprocessor") fi
             (JObj [("rmse", JNum 50)]) "2024-01-01T00:00:00" empty_disk in
  exists e s'', pipeline_artifacts false true (JStr "model2") (JStr "preprocessor2") fi
                  (JObj [("rmse", JNum 40)]) "2024-01-02T00:00:00" (snd r) = (Err e, s'').
Proof.
  intros fi r.
  exact (relative_links_second_pipeline_raises (JStr "model") (JStr "preprocessor") fi
           (JObj [("rmse", JNum 50)]) "2024-01-01T00:00:00" empty_disk "v1.0.0" (snd r)
           ltac:(discriminate) ltac:(intros n _; left; reflexivity)
           ltac:(vm_compute; reflexivity)
           (JStr "model2") (JStr "preprocessor2") fi (JObj [("rmse", JNum 40)])
           "2024-01-02T00:00:00" ltac:(discriminate)).
Defined.
